(** * bmclib: the SupermicroX provider and the HP c7000 SOAP helper

    A shallow embedding of
      - providers/supermicro/supermicrox/supermicrox.go
      - providers/hp/c7000/xmlhelpers.go
    Go strings are byte strings ([string]), Go [int] is a 64-bit signed
    integer carried in [Z] with its wrap-around written out, [float64] is
    IEEE binary64 ([spec_float] at precision 53), a method returning
    [(T, error)] returns a pair [T * option error], and a run-time panic
    is an outcome of its own. *)

From Stdlib Require Import ZArith List String Ascii Bool Lia.
From Stdlib Require Import SpecFloat.
Import ListNotations.
Local Open Scope string_scope.
Local Open Scope Z_scope.

(** ** Go primitives used by the providers *)

Module Go.

(** [int] on a 64-bit platform. *)
Definition minInt : Z := - 2 ^ 63.
Definition maxInt : Z := 2 ^ 63 - 1.
Definition maxUint64 : Z := 2 ^ 64 - 1.

Definition wrap64 (z : Z) : Z := (z + 2 ^ 63) mod 2 ^ 64 - 2 ^ 63.

Definition int_add (a b : Z) : Z := wrap64 (a + b).

(** The sum of a list of integers, without wrap-around. *)
Definition total (sizes : list Z) : Z := fold_right Z.add 0 sizes.
(** Go's [/] on integers truncates towards zero; by a positive constant the
    quotient cannot leave the range of [int]. *)
Definition int_div (a b : Z) : Z := Z.quot a b.

(** [float64]. *)
Definition float64 : Type := spec_float.
Definition float64_zero : float64 := S754_zero false.
(** The conversion [float64(v)] of an [int]: round to nearest even. *)
Definition float64_of_int (v : Z) : float64 := binary_normalize 53 1024 v 0 false.
Definition float64_div (x y : float64) : float64 := SFdiv 53 1024 x y.

(** The float64 values of the literals 0.9 and 0.75: the first is the
    double nearest to 9/10 (mantissa 0x1ccccccccccccd), the second is
    exactly 3/4. *)
Definition float64_0_9 : float64 := S754_finite false 8106479329266893 (-53).
Definition float64_0_75 : float64 := S754_finite false 6755399441055744 (-53).

(** Bytes. *)
Definition byte_val (c : ascii) : Z := Z.of_nat (nat_of_ascii c).

Definition len (s : string) : Z := Z.of_nat (String.length s).

(** [strings.HasSuffix] and [strings.TrimSuffix]. *)
Fixpoint drop (n : nat) (s : string) : string :=
  match n, s with
  | O, _ => s
  | S n', String _ s' => drop n' s'
  | S _, EmptyString => EmptyString
  end.

Fixpoint take (n : nat) (s : string) : string :=
  match n, s with
  | O, _ => EmptyString
  | S n', String c s' => String c (take n' s')
  | S _, EmptyString => EmptyString
  end.

Definition HasSuffix (s suffix : string) : bool :=
  (String.length suffix <=? String.length s)%nat &&
  String.eqb (drop (String.length s - String.length suffix) s) suffix.

Definition TrimSuffix (s suffix : string) : string :=
  if HasSuffix s suffix
  then take (String.length s - String.length suffix) s
  else s.

(** [strings.ToLower]: the ASCII path is the library's own loop; a string
    with a byte >= utf8.RuneSelf goes through [strings.Map(unicode.ToLower)],
    whose Unicode tables are a parameter here. *)
Definition RuneSelf : Z := 128.

Fixpoint isASCII (s : string) : bool :=
  match s with
  | EmptyString => true
  | String c s' => (byte_val c <? RuneSelf) && isASCII s'
  end.

Definition lower_byte (c : ascii) : ascii :=
  if (byte_val "A" <=? byte_val c) && (byte_val c <=? byte_val "Z")
  then ascii_of_nat (nat_of_ascii c + 32)
  else c.

Fixpoint lower_ascii (s : string) : string :=
  match s with
  | EmptyString => EmptyString
  | String c s' => String (lower_byte c) (lower_ascii s')
  end.

Definition ToLower (mapUnicodeLower : string -> string) (s : string) : string :=
  if isASCII s then lower_ascii s else mapUnicodeLower s.

(** [strconv]: the two error kinds of a [*NumError]. *)
Inductive numErr := ErrSyntax | ErrRange.

(** [strconv.ParseUint(s, 10, 64)] on a non-empty digit string: the
    accumulator loop, with its cut-off test before each multiplication. *)
Definition cutoff : Z := maxUint64 / 10 + 1.

Fixpoint parseUint_loop (s : string) (n : Z) : Z * option numErr :=
  match s with
  | EmptyString => (n, None)
  | String c s' =>
      let d := byte_val c - byte_val "0" in
      if (d <? 0) || (9 <? d) then (0, Some ErrSyntax)
      else if cutoff <=? n then (maxUint64, Some ErrRange)
      else
        let n1 := n * 10 + d in
        if maxUint64 <? n1 then (maxUint64, Some ErrRange)
        else parseUint_loop s' n1
  end.

Definition ParseUint (s : string) : Z * option numErr :=
  match s with
  | EmptyString => (0, Some ErrSyntax)
  | _ => parseUint_loop s 0
  end.

(** [strconv.ParseInt(s, 10, 0)]. *)
Definition ParseInt (s : string) : Z * option numErr :=
  match s with
  | EmptyString => (0, Some ErrSyntax)
  | String c s' =>
      let neg := Ascii.eqb c "-" in
      let digits := if Ascii.eqb c "+" || neg then s' else s in
      match ParseUint digits with
      | (_, Some ErrSyntax) => (0, Some ErrSyntax)
      | (un, _) =>
          if negb neg && (2 ^ 63 <=? un) then (maxInt, Some ErrRange)
          else if neg && (2 ^ 63 <? un) then (minInt, Some ErrRange)
          else (if neg then - un else un, None)
      end
  end.

(** [strconv.Atoi]: a fast path for fewer than 19 bytes, [ParseInt]
    otherwise. *)
Fixpoint atoi_fast (s : string) (n : Z) : option Z :=
  match s with
  | EmptyString => Some n
  | String c s' =>
      let d := byte_val c - byte_val "0" in
      if (d <? 0) || (9 <? d) then None else atoi_fast s' (n * 10 + d)
  end.

Definition Atoi (s : string) : Z * option numErr :=
  if (0 <? len s) && (len s <? 19) then
    match s with
    | EmptyString => (0, Some ErrSyntax)
    | String c s' =>
        let signed := Ascii.eqb c "-" || Ascii.eqb c "+" in
        let digits := if signed then s' else s in
        if signed && (len digits <? 1) then (0, Some ErrSyntax)
        else
          match atoi_fast digits 0 with
          | None => (0, Some ErrSyntax)
          | Some n => (if Ascii.eqb c "-" then - n else n, None)
          end
    end
  else ParseInt s.

End Go.

(** ** The error values the providers return *)

Module errors.

(** Modelled from the spec: the sentinels of bmclib's errors package,
    whose declarations are not in these sources, next to the errors the
    Go library hands up. *)
Inductive package := net_url | net_http | io_ioutil | encoding_xml | encoding_json.

Inductive error :=
(* bmclib/errors *)
| ErrPageNotFound
| ErrInvalidSerial
| ErrUnableToReadData
| ErrNotImplemented
| ErrLoginFailed
(* fmt.Errorf *)
| errorString (msg : string)
(* *strconv.NumError *)
| NumError (Func Num : string) (Err : Go.numErr)
(* an error of the Go library: transport, URL, body read, decoder *)
| libError (pkg : package) (msg : string).

End errors.
Export errors.

(** ** Outcomes and the provider monad *)

Inductive outcome (A : Type) : Type :=
| Done (a : A)
| Panic (msg : string).
Arguments Done {A} a.
Arguments Panic {A} msg.

Definition nilDeref : string := "invalid memory address or nil pointer dereference".

Section Monad.
Context {World : Type}.

(** A method call: runs against the target and leaves it in a new state. *)
Definition M (A : Type) : Type := World -> outcome A * World.

Definition ret {A} (a : A) : M A := fun w => (Done a, w).

Definition bind {A B} (m : M A) (k : A -> M B) : M B :=
  fun w =>
    match m w with
    | (Done a, w') => k a w'
    | (Panic msg, w') => (Panic msg, w')
    end.

Definition panic {A} (msg : string) : M A := fun w => (Panic msg, w).

(** Reading through a pointer. *)
Definition deref {A} (p : option A) : M A :=
  match p with
  | Some a => ret a
  | None => panic nilDeref
  end.
End Monad.
Arguments M World A : clear implicits.

Declare Scope go_scope.
Delimit Scope go_scope with go.
Notation "x <- m ;; k" := (bind m (fun x => k))
(at level 61, m at next level, right associativity) : go_scope.
Notation "' p <- m ;; k" := (bind m (fun x => match x with p => k end))
(at level 61, p pattern, m at next level, right associativity) : go_scope.

(** ** net/http, as far as the providers look at it *)

Module http.

Record Cookie := { Cookie_Name : string; Cookie_Value : string }.

Record Request := {
  Request_Method : string;
  Request_URL : string;
  Request_Body : string;
  Request_Header : list (string * string);
  Request_Cookies : list Cookie;
  Request_BasicAuth : option (string * string) }.

(** A response: its status code and what [ioutil.ReadAll] makes of its
    body, the bytes read and the read error if any. *)
Record Response := {
  Response_StatusCode : Z;
  Response_Body : string;
  Response_BodyErr : option string }.

Definition Header_Add (key value : string) (req : Request) : Request :=
  {| Request_Method := Request_Method req;
     Request_URL := Request_URL req;
     Request_Body := Request_Body req;
     Request_Header := Request_Header req ++ [(key, value)];
     Request_Cookies := Request_Cookies req;
     Request_BasicAuth := Request_BasicAuth req |}.

Definition AddCookie (req : Request) (c : Cookie) : Request :=
  {| Request_Method := Request_Method req;
     Request_URL := Request_URL req;
     Request_Body := Request_Body req;
     Request_Header := Request_Header req;
     Request_Cookies := Request_Cookies req ++ [c];
     Request_BasicAuth := Request_BasicAuth req |}.

Definition SetBasicAuth (username password : string) (req : Request) : Request :=
  {| Request_Method := Request_Method req;
     Request_URL := Request_URL req;
     Request_Body := Request_Body req;
     Request_Header := Request_Header req;
     Request_Cookies := Request_Cookies req;
     Request_BasicAuth := Some (username, password) |}.

Definition ReadAll (resp : Response) : string * option error :=
  (Response_Body resp,
   match Response_BodyErr resp with
   | Some msg => Some (libError io_ioutil msg)
   | None => None
   end).

End http.

(** ** The decoded documents of the form/XML dialect *)

Module supermicro.

(** Modelled from the spec: the document types of package supermicro,
    whose declarations are not in supermicrox.go.  The root aggregates one
    optional sub-element per query family; the fields are those the
    provider reads.  A pointer field is an [option], a slice a [list], and
    a decoded slice holds no nil entry.  [PowerInfo.Power] is read without
    a nil test and is held by value. *)

Record Board := { Board_SerialNum : string; Board_PartNum : string }.
Record FruInfo := { FruInfo_Board : option Board }.

Record Generic := { Generic_IpmiFwVersion : string; Generic_BmcMac : string }.
Record GenericInfo := {
  GenericInfo_IpmiFwVersion : string;
  GenericInfo_BmcMac : string;
  GenericInfo_Generic : option Generic }.

Record Hostname := { Hostname_Name : string }.
Record ConfigInfo := { ConfigInfo_Hostname : option Hostname }.

Record HealthInfo := { HealthInfo_Health : string }.

Record Dimm := { Dimm_Size : string }.
Record CPU := { CPU_Version : string; CPU_Core : string }.
Record Bios := { Bios_Version : string }.

Record Node := {
  Node_ID : Z;
  Node_NodeSerial : string;
  Node_Power : string;
  Node_SystemTemp : string }.
Record NodeInfo := { NodeInfo_Nodes : list Node }.

Record Power := { Power_Status : string }.
Record PowerInfo := { PowerInfo_Power : Power }.

Record PlatformInfo := {
  PlatformInfo_MbMacAddr1 : string;
  PlatformInfo_MbMacAddr2 : string;
  PlatformInfo_MbMacAddr3 : string;
  PlatformInfo_MbMacAddr4 : string }.

Record BiosLicense := { BiosLicense_Check : string }.

Record IPMI := {
  IPMI_Bios : option Bios;
  IPMI_CPU : list CPU;
  IPMI_ConfigInfo : option ConfigInfo;
  IPMI_Dimm : list Dimm;
  IPMI_FruInfo : option FruInfo;
  IPMI_GenericInfo : option GenericInfo;
  IPMI_HealthInfo : option HealthInfo;
  IPMI_PlatformInfo : option PlatformInfo;
  IPMI_PowerInfo : option PowerInfo;
  IPMI_NodeInfo : option NodeInfo;
  IPMI_BiosLicense : option BiosLicense }.

(** [&supermicro.IPMI{}] *)
Definition IPMI_zero : IPMI :=
  {| IPMI_Bios := None; IPMI_CPU := []; IPMI_ConfigInfo := None;
     IPMI_Dimm := []; IPMI_FruInfo := None; IPMI_GenericInfo := None;
     IPMI_HealthInfo := None; IPMI_PlatformInfo := None;
     IPMI_PowerInfo := None; IPMI_NodeInfo := None;
     IPMI_BiosLicense := None |}.

End supermicro.

(** ** The device records *)

Module devices.

(** Modelled from the spec: the Nic, Disk, Discrete and Blade records of
    package devices, whose declarations are not in supermicrox.go, with
    the fields the aggregator sets. *)

Record Nic := { Nic_Name : string; Nic_MacAddress : string }.

(** No disk is ever reported by this provider. *)
Record Disk := { Disk_Serial : string }.

Record Discrete := {
  Discrete_Vendor : string;
  Discrete_BmcAddress : string;
  Discrete_BmcType : string;
  Discrete_Serial : string;
  Discrete_BmcVersion : string;
  Discrete_Model : string;
  Discrete_Nics : list Nic;
  Discrete_Disks : list Disk;
  Discrete_BiosVersion : string;
  Discrete_Processor : string;
  Discrete_ProcessorCount : Z;
  Discrete_ProcessorCoreCount : Z;
  Discrete_ProcessorThreadCount : Z;
  Discrete_Memory : Z;
  Discrete_Status : string;
  Discrete_Name : string;
  Discrete_TempC : Z;
  Discrete_PowerKw : Go.float64;
  Discrete_PowerState : string;
  Discrete_BmcLicenceType : string;
  Discrete_BmcLicenceStatus : string }.

Record Blade := {
  Blade_Vendor : string;
  Blade_BmcAddress : string;
  Blade_BmcType : string;
  Blade_Serial : string;
  Blade_BmcVersion : string;
  Blade_Model : string;
  Blade_Nics : list Nic;
  Blade_Disks : list Disk;
  Blade_BiosVersion : string;
  Blade_Processor : string;
  Blade_ProcessorCount : Z;
  Blade_ProcessorCoreCount : Z;
  Blade_ProcessorThreadCount : Z;
  Blade_Memory : Z;
  Blade_Status : string;
  Blade_Name : string;
  Blade_TempC : Z;
  Blade_PowerKw : Go.float64;
  Blade_PowerState : string;
  Blade_BmcLicenceType : string;
  Blade_BmcLicenceStatus : string;
  Blade_BladePosition : Z;
  Blade_ChassisSerial : string }.

End devices.

(** ** The SupermicroX provider *)

Module supermicrox.
Import http supermicro devices.
Local Open Scope go_scope.

(** The receiver; its HTTP client and cookie jar live in the world. *)
Record SupermicroX := { ip : string; username : string; password : string }.

Record ErrorExtended := { MessageId : string }.

Record ChassisError := {
  Code : string;
  Message : string;
  ExtendedMessage : list (option ErrorExtended) }.

Record ChassisInfo := { SerialNumber : string; Error : ChassisError }.

(** What the provider needs from outside this file: the login of the
    session manager, the Go library (URL parsing, transport, decoders,
    formatting, Unicode tables) and two names of sibling packages.  A
    login that returns no error leaves an HTTP client with a cookie jar
    behind, so the jar can be read and the client used.  Logging and the
    request and response dumps are left out. *)
Class Platform (World : Type) := {
  httpLogin : SupermicroX -> World -> option error * World;
  url_Parse : string -> option string;
  Jar_Cookies : string -> World -> list Cookie;
  httpClient_Do : Request -> World -> (Response + string) * World;
  xml_Unmarshal : string -> IPMI * option string;
  json_Unmarshal : string -> ChassisInfo * option string;
  unicode_ToLower : string -> string;
  Sprintf_Extended : Z -> option ErrorExtended -> string;
  Errorf : string -> string;
  StandardizeProcessorName : string -> string;
  VendorID : string }.

Section Provider.
Context {World : Type} {P : Platform World}.

Definition ToLower (s : string) : string := Go.ToLower unicode_ToLower s.

(** [http.NewRequest] with a valid method fails exactly when the URL does
    not parse. *)
Definition NewRequest (method url body : string) : Request + error :=
  match url_Parse url with
  | Some msg => inr (libError net_url msg)
  | None =>
      inl {| Request_Method := method; Request_URL := url;
             Request_Body := body; Request_Header := [];
             Request_Cookies := []; Request_BasicAuth := None |}
  end.

Definition login (s : SupermicroX) : M World (option error) :=
  fun w => let (err, w') := httpLogin s w in (Done err, w').

Definition Cookies (u : string) : M World (list Cookie) :=
  fun w => (Done (Jar_Cookies u w), w).

Definition Do (req : Request) : M World (Response + error) :=
  fun w =>
    match httpClient_Do req w with
    | (inl resp, w') => (Done (inl resp), w')
    | (inr msg, w') => (Done (inr (libError net_http msg)), w')
    end.

(** The loop that attaches the session cookie. *)
Definition addSessionCookies (req : Request) (cookies : list Cookie) : Request :=
  fold_left
    (fun req cookie =>
       if String.eqb (Cookie_Name cookie) "SID"
          && negb (String.eqb (Cookie_Value cookie) "")
       then AddCookie req cookie
       else req)
    cookies req.

(** get calls a given json endpoint and returns the data; a nil payload is
    [None]. *)
Definition get (s : SupermicroX) (endpoint : string) (authentication : bool)
  : M World (option string * option error) :=
  err <- login s ;;
  match err with
  | Some e => ret (None, Some e)
  | None =>
      let bmcURL := "https://" ++ ip s in
      match NewRequest "GET" (bmcURL ++ "/" ++ endpoint) "" with
      | inr e => ret (None, Some e)
      | inl req =>
          match url_Parse bmcURL with
          | Some msg => ret (None, Some (libError net_url msg))
          | None =>
              cookies <- Cookies bmcURL ;;
              let req := addSessionCookies req cookies in
              let req :=
                if authentication
                then SetBasicAuth (username s) (password s) req
                else req in
              r <- Do req ;;
              match r with
              | inr e => ret (None, Some e)
              | inl resp =>
                  match ReadAll resp with
                  | (_, Some e) => ret (None, Some e)
                  | (payload, None) =>
                      if Response_StatusCode resp =? 404
                      then ret (None, Some ErrPageNotFound)
                      else ret (Some payload, None)
                  end
              end
          end
      end
  end.

Definition query (s : SupermicroX) (requestType : string)
  : M World (option IPMI * option error) :=
  err <- login s ;;
  match err with
  | Some e => ret (None, Some e)
  | None =>
      let bmcURL := "https://" ++ ip s ++ "/cgi/ipmi.cgi" in
      match NewRequest "POST" bmcURL requestType with
      | inr e => ret (None, Some e)
      | inl req =>
          let req :=
            Header_Add "Content-Type" "application/x-www-form-urlencoded" req in
          match url_Parse bmcURL with
          | Some msg => ret (None, Some (libError net_url msg))
          | None =>
              cookies <- Cookies bmcURL ;;
              let req := addSessionCookies req cookies in
              r <- Do req ;;
              match r with
              | inr e => ret (None, Some e)
              | inl resp =>
                  match ReadAll resp with
                  | (_, Some e) => ret (None, Some e)
                  | (payload, None) =>
                      match xml_Unmarshal payload with
                      | (ipmi, Some msg) =>
                          ret (Some ipmi, Some (libError encoding_xml msg))
                      | (ipmi, None) => ret (Some ipmi, None)
                      end
                  end
              end
          end
      end
  end.

(** Serial returns the device serial *)
Definition Serial (s : SupermicroX) : M World (string * option error) :=
  '(ipmi, err) <- query s "FRU_INFO.XML=(0,0)" ;;
  match err with
  | Some e => ret ("", Some e)
  | None =>
      ipmi <- deref ipmi ;;
      match IPMI_FruInfo ipmi with
      | None => ret ("", Some ErrInvalidSerial)
      | Some fru =>
          match FruInfo_Board fru with
          | None => ret ("", Some ErrInvalidSerial)
          | Some board => ret (ToLower (Board_SerialNum board), None)
          end
      end
  end.

(** The loop that appends the extended messages to the error text. *)
Fixpoint extendedInfo (i : Z) (l : list (option ErrorExtended)) (e : string) : string :=
  match l with
  | [] => e
  | x :: l' => extendedInfo (i + 1) l' (e ++ Sprintf_Extended i x)
  end.

(** ChassisSerial returns the serial number of the chassis where the blade
    is attached *)
Definition ChassisSerial (s : SupermicroX) : M World (string * option error) :=
  '(payload, err) <- get s "redfish/v1/Chassis/1" true ;;
  match err with
  | Some e => ret ("", Some e)
  | None =>
      payload <- deref payload ;;
      match json_Unmarshal payload with
      | (_, Some msg) => ret ("", Some (libError encoding_json msg))
      | (chassisInfo, None) =>
          if negb (String.eqb (Code (Error chassisInfo)) "")
          then
            let e := "Code: " ++ Code (Error chassisInfo)
                     ++ ", Message: " ++ Message (Error chassisInfo) in
            let e := extendedInfo 0 (ExtendedMessage (Error chassisInfo)) e in
            ret ("", Some (errorString (Errorf e)))
          else ret (ToLower (SerialNumber chassisInfo), None)
      end
  end.

(** Model returns the device model *)
Definition Model (s : SupermicroX) : M World (string * option error) :=
  '(ipmi, err) <- query s "FRU_INFO.XML=(0,0)" ;;
  match err with
  | Some e => ret ("", Some e)
  | None =>
      ipmi <- deref ipmi ;;
      match IPMI_FruInfo ipmi with
      | Some fru =>
          match FruInfo_Board fru with
          | Some board => ret (Board_PartNum board, None)
          | None => ret ("", Some (errorString "SupermicroX Model(): Model not found!"))
          end
      | None => ret ("", Some (errorString "SupermicroX Model(): Model not found!"))
      end
  end.

(** HardwareType returns just Model id string; the error is logged and
    dropped. *)
Definition HardwareType (s : SupermicroX) : M World string :=
  '(m, err) <- Model s ;;
  match err with
  | Some _ => ret ""
  | None => ret m
  end.

(** Version returns the version of the bmc we are running *)
Definition Version (s : SupermicroX) : M World (string * option error) :=
  '(ipmi, err) <- query s "GENERIC_INFO.XML=(0,0)" ;;
  match err with
  | Some e => ret ("", Some e)
  | None =>
      ipmi <- deref ipmi ;;
      match IPMI_GenericInfo ipmi with
      | Some gi =>
          if negb (String.eqb (GenericInfo_IpmiFwVersion gi) "")
          then ret (GenericInfo_IpmiFwVersion gi, None)
          else
            match GenericInfo_Generic gi with
            | Some g => ret (Generic_IpmiFwVersion g, None)
            | None => ret ("", None)
            end
      | None => ret ("", None)
      end
  end.

(** Name returns the hostname of the machine *)
Definition Name (s : SupermicroX) : M World (string * option error) :=
  '(ipmi, err) <- query s "CONFIG_INFO.XML=(0,0)" ;;
  match err with
  | Some e => ret ("", Some e)
  | None =>
      ipmi <- deref ipmi ;;
      match IPMI_ConfigInfo ipmi with
      | Some ci =>
          match ConfigInfo_Hostname ci with
          | Some h => ret (Hostname_Name h, None)
          | None => ret ("", None)
          end
      | None => ret ("", None)
      end
  end.

(** Status returns health string status from the bmc *)
Definition Status (s : SupermicroX) : M World (string * option error) :=
  '(ipmi, err) <- query s "SENSOR_INFO_FOR_SYS_HEALTH.XML=(1,ff)" ;;
  match err with
  | Some e => ret ("", Some e)
  | None =>
      ipmi <- deref ipmi ;;
      match IPMI_HealthInfo ipmi with
      | Some hi =>
          if String.eqb (HealthInfo_Health hi) "1"
          then ret ("OK", None)
          else ret ("Unhealthy", None)
      | None => ret ("Unhealthy", None)
      end
  end.

(** Memory returns the total amount of memory of the server.  The loop
    either returns from inside ([inl]) or falls through with the sum. *)
Fixpoint Memory_loop (dimms : list Dimm) (mem : Z) : (Z * option error) + Z :=
  match dimms with
  | [] => inr mem
  | dimm :: rest =>
      let dimm := Go.TrimSuffix (Dimm_Size dimm) " MB" in
      match Go.Atoi dimm with
      | (_, Some ne) => inl (mem, Some (NumError "Atoi" dimm ne))
      | (size, None) => Memory_loop rest (Go.int_add mem size)
      end
  end.

Definition Memory (s : SupermicroX) : M World (Z * option error) :=
  '(ipmi, err) <- query s "SMBIOS_INFO.XML=(0,0)" ;;
  ipmi <- deref ipmi ;;
  match Memory_loop (IPMI_Dimm ipmi) 0 with
  | inl r => ret r
  | inr mem => ret (Go.int_div mem 1024, err)
  end.

(** CPU returns the cpu, cores and hyperthreads of the server *)
Definition CPU (s : SupermicroX) : M World (string * Z * Z * Z * option error) :=
  '(ipmi, err) <- query s "SMBIOS_INFO.XML=(0,0)" ;;
  match err with
  | Some e => ret ("", 0, 0, 0, Some e)
  | None =>
      ipmi <- deref ipmi ;;
      match IPMI_CPU ipmi with
      | [] => ret ("", 0, 0, 0, None)
      | entry :: _ =>
          let cpu := StandardizeProcessorName (CPU_Version entry) in
          let cpuCount := Z.of_nat (List.length (IPMI_CPU ipmi)) in
          match Go.Atoi (CPU_Core entry) with
          | (_, Some ne) =>
              ret (cpu, cpuCount, 0, 0, Some (NumError "Atoi" (CPU_Core entry) ne))
          | (coreCount, None) =>
              let hyperthreadCount := coreCount in
              ret (cpu, cpuCount, coreCount, hyperthreadCount, None)
          end
      end
  end.

(** BiosVersion returns the current version of the bios *)
Definition BiosVersion (s : SupermicroX) : M World (string * option error) :=
  '(ipmi, err) <- query s "SMBIOS_INFO.XML=(0,0)" ;;
  match err with
  | Some e => ret ("", Some e)
  | None =>
      ipmi <- deref ipmi ;;
      match IPMI_Bios ipmi with
      | Some bios => ret (Bios_Version bios, None)
      | None => ret ("", None)
      end
  end.

(** The node whose serial is the device's own: the first one the loop
    meets. *)
Definition ownNode (serial : string) (nodes : list Node) : option Node :=
  find (fun node => String.eqb (ToLower (Node_NodeSerial node)) serial) nodes.

(** The constant [1000.00]. *)
Definition float64_1000 : Go.float64 := Go.float64_of_int 1000.

(** PowerKw returns the current power usage in Kw *)
Definition PowerKw (s : SupermicroX) : M World (Go.float64 * option error) :=
  '(ipmi, err) <- query s "Get_NodeInfoReadings.XML=(0,0)" ;;
  match err with
  | Some e => ret (Go.float64_zero, Some e)
  | None =>
      ipmi <- deref ipmi ;;
      match IPMI_NodeInfo ipmi with
      | Some ni =>
          '(serial, err) <- Serial s ;;
          match err with
          | Some e => ret (Go.float64_zero, Some e)
          | None =>
              match ownNode serial (NodeInfo_Nodes ni) with
              | Some node =>
                  match Go.Atoi (Node_Power node) with
                  | (_, Some ne) =>
                      ret (Go.float64_zero,
                           Some (NumError "Atoi" (Node_Power node) ne))
                  | (value, None) =>
                      ret (Go.float64_div (Go.float64_of_int value) float64_1000,
                           None)
                  end
              | None => ret (Go.float64_zero, None)
              end
          end
      | None => ret (Go.float64_zero, None)
      end
  end.

(** PowerState returns the current power state of the machine *)
Definition PowerState (s : SupermicroX) : M World (string * option error) :=
  '(ipmi, err) <- query s "POWER_INFO.XML=(0,0)" ;;
  match err with
  | Some e => ret ("", Some e)
  | None =>
      ipmi <- deref ipmi ;;
      match IPMI_PowerInfo ipmi with
      | Some pi => ret (ToLower (Power_Status (PowerInfo_Power pi)), None)
      | None => ret ("unknow", None)
      end
  end.

(** TempC returns the current temperature of the machine *)
Definition TempC (s : SupermicroX) : M World (Z * option error) :=
  '(ipmi, err) <- query s "Get_NodeInfoReadings.XML=(0,0)" ;;
  match err with
  | Some e => ret (0, Some e)
  | None =>
      ipmi <- deref ipmi ;;
      match IPMI_NodeInfo ipmi with
      | Some ni =>
          '(serial, err) <- Serial s ;;
          match err with
          | Some e => ret (0, Some e)
          | None =>
              match ownNode serial (NodeInfo_Nodes ni) with
              | Some node =>
                  match Go.Atoi (Node_SystemTemp node) with
                  | (temp, Some ne) =>
                      ret (temp, Some (NumError "Atoi" (Node_SystemTemp node) ne))
                  | (temp, None) => ret (temp, None)
                  end
              | None => ret (0, None)
              end
          end
      | None => ret (0, None)
      end
  end.

(** IsBlade returns if the current hardware is a blade or not *)
Definition IsBlade (s : SupermicroX) : M World (bool * option error) :=
  '(ipmi, err) <- query s "Get_NodeInfoReadings.XML=(0,0)" ;;
  match err with
  | Some e => ret (false, Some e)
  | None =>
      ipmi <- deref ipmi ;;
      match IPMI_NodeInfo ipmi with
      | Some ni =>
          if existsb (fun node => negb (String.eqb (Node_NodeSerial node) ""))
               (NodeInfo_Nodes ni)
          then ret (true, None)
          else ret (false, None)
      | None => ret (false, None)
      end
  end.

(** Slot returns the current slot within the chassis; the loop has no
    break, the last matching node decides. *)
Definition Slot (s : SupermicroX) : M World (Z * option error) :=
  let slot := 1 in
  '(ipmi, err) <- query s "Get_NodeInfoReadings.XML=(0,0)" ;;
  match err with
  | Some e => ret (slot, Some e)
  | None =>
      ipmi <- deref ipmi ;;
      match IPMI_NodeInfo ipmi with
      | None => ret (slot, Some ErrUnableToReadData)
      | Some ni =>
          '(serial, err) <- Serial s ;;
          match err with
          | Some e => ret (slot, Some e)
          | None =>
              ret (fold_left
                     (fun slot node =>
                        if String.eqb (ToLower (Node_NodeSerial node)) serial
                        then Go.int_add (Node_ID node) 1
                        else slot)
                     (NodeInfo_Nodes ni) slot,
                   None)
          end
      end
  end.

Definition appendNic (name mac : string) (nics : list Nic) : list Nic :=
  nics ++ [{| Nic_Name := name; Nic_MacAddress := mac |}].

Definition appendIfSet (name mac : string) (nics : list Nic) : list Nic :=
  if negb (String.eqb mac "") then appendNic name mac nics else nics.

(** Nics returns all found Nics in the device *)
Definition Nics (s : SupermicroX) : M World (list Nic * option error) :=
  '(ipmi, err) <- query s "GENERIC_INFO.XML=(0,0)" ;;
  match err with
  | Some e => ret ([], Some e)
  | None =>
      let nics :=
        match ipmi with
        | Some ipmi =>
            match IPMI_GenericInfo ipmi with
            | Some gi =>
                if negb (String.eqb (GenericInfo_BmcMac gi) "")
                then appendNic "bmc" (GenericInfo_BmcMac gi) []
                else
                  match GenericInfo_Generic gi with
                  | Some g => appendNic "bmc" (Generic_BmcMac g) []
                  | None => []
                  end
            | None => []
            end
        | None => []
        end in
      '(ipmi, err) <- query s "Get_PlatformInfo.XML=(0,0)" ;;
      match err with
      | Some e => ret (nics, Some e)
      | None =>
          ipmi <- deref ipmi ;;
          match IPMI_PlatformInfo ipmi with
          | Some pi =>
              let nics := appendIfSet "eth0" (PlatformInfo_MbMacAddr1 pi) nics in
              let nics := appendIfSet "eth1" (PlatformInfo_MbMacAddr2 pi) nics in
              let nics := appendIfSet "eth2" (PlatformInfo_MbMacAddr3 pi) nics in
              let nics := appendIfSet "eth3" (PlatformInfo_MbMacAddr4 pi) nics in
              ret (nics, None)
          | None => ret (nics, None)
          end
      end
  end.

(** License returns the license information *)
Definition License (s : SupermicroX) : M World (string * string * option error) :=
  '(ipmi, err) <- query s "BIOS_LINCENSE_ACTIVATE.XML=(0,0)" ;;
  match err with
  | Some e => ret ("", "", Some e)
  | None =>
      ipmi <- deref ipmi ;;
      match IPMI_BiosLicense ipmi with
      | Some lic =>
          if String.eqb (BiosLicense_Check lic) "0"
          then ret ("oob", "Activated", None)
          else if String.eqb (BiosLicense_Check lic) "1"
          then ret ("oob", "Not Activated", None)
          else ret ("", "", None)
      | None => ret ("", "", None)
      end
  end.

(** Vendor returns bmc's vendor *)
Definition Vendor (s : SupermicroX) : string := VendorID.

(** Disks returns a list of disks installed on the device *)
Definition Disks (s : SupermicroX) : M World (list Disk * option error) :=
  ret ([], None).

(** What ServerSnapshot hands back: nil, a *devices.Blade or a
    *devices.Discrete. *)
Inductive snapshot :=
| BladeSnapshot (blade : Blade)
| DiscreteSnapshot (discrete : Discrete).

(** [v, err = m; if err != nil { return nil, err }] *)
Definition orReturn {A} (m : M World (A * option error))
  (k : A -> M World (option snapshot * option error))
  : M World (option snapshot * option error) :=
  '(v, err) <- m ;;
  match err with
  | Some e => ret (None, Some e)
  | None => k v
  end.

Notation "x <-! m ;; k" := (orReturn m (fun x => k))
  (at level 61, m at next level, right associativity) : go_scope.
Notation "' p <-! m ;; k" := (orReturn m (fun x => match x with p => k end))
  (at level 61, p pattern, m at next level, right associativity) : go_scope.

(** The two branches of ServerSnapshot.  The record under construction is
    local to the call and dropped on an early return, so it is built once
    every field is known. *)
Definition bladeSnapshot (s : SupermicroX) : M World (option snapshot * option error) :=
  let vendor := Vendor s in
  let bmcAddress := ip s in
  bmcType <- HardwareType s ;;
  serial <-! Serial s ;;
  bmcVersion <-! Version s ;;
  model <-! Model s ;;
  nics <-! Nics s ;;
  disks <-! Disks s ;;
  biosVersion <-! BiosVersion s ;;
  '(processor, processorCount, coreCount, threadCount) <-! CPU s ;;
  memory <-! Memory s ;;
  status <-! Status s ;;
  name <-! Name s ;;
  tempC <-! TempC s ;;
  powerKw <-! PowerKw s ;;
  powerState <-! PowerState s ;;
  '(licenceType, licenceStatus) <-! License s ;;
  bladePosition <-! Slot s ;;
  chassisSerial <-! ChassisSerial s ;;
  ret (Some (BladeSnapshot
         {| Blade_Vendor := vendor; Blade_BmcAddress := bmcAddress;
            Blade_BmcType := bmcType; Blade_Serial := serial;
            Blade_BmcVersion := bmcVersion; Blade_Model := model;
            Blade_Nics := nics; Blade_Disks := disks;
            Blade_BiosVersion := biosVersion; Blade_Processor := processor;
            Blade_ProcessorCount := processorCount;
            Blade_ProcessorCoreCount := coreCount;
            Blade_ProcessorThreadCount := threadCount;
            Blade_Memory := memory; Blade_Status := status;
            Blade_Name := name; Blade_TempC := tempC;
            Blade_PowerKw := powerKw; Blade_PowerState := powerState;
            Blade_BmcLicenceType := licenceType;
            Blade_BmcLicenceStatus := licenceStatus;
            Blade_BladePosition := bladePosition;
            Blade_ChassisSerial := chassisSerial |}),
       None).

Definition discreteSnapshot (s : SupermicroX) : M World (option snapshot * option error) :=
  let vendor := Vendor s in
  let bmcAddress := ip s in
  bmcType <- HardwareType s ;;
  serial <-! Serial s ;;
  bmcVersion <-! Version s ;;
  model <-! Model s ;;
  nics <-! Nics s ;;
  disks <-! Disks s ;;
  biosVersion <-! BiosVersion s ;;
  '(processor, processorCount, coreCount, threadCount) <-! CPU s ;;
  memory <-! Memory s ;;
  status <-! Status s ;;
  name <-! Name s ;;
  tempC <-! TempC s ;;
  powerKw <-! PowerKw s ;;
  powerState <-! PowerState s ;;
  '(licenceType, licenceStatus) <-! License s ;;
  ret (Some (DiscreteSnapshot
         {| Discrete_Vendor := vendor; Discrete_BmcAddress := bmcAddress;
            Discrete_BmcType := bmcType; Discrete_Serial := serial;
            Discrete_BmcVersion := bmcVersion; Discrete_Model := model;
            Discrete_Nics := nics; Discrete_Disks := disks;
            Discrete_BiosVersion := biosVersion;
            Discrete_Processor := processor;
            Discrete_ProcessorCount := processorCount;
            Discrete_ProcessorCoreCount := coreCount;
            Discrete_ProcessorThreadCount := threadCount;
            Discrete_Memory := memory; Discrete_Status := status;
            Discrete_Name := name; Discrete_TempC := tempC;
            Discrete_PowerKw := powerKw; Discrete_PowerState := powerState;
            Discrete_BmcLicenceType := licenceType;
            Discrete_BmcLicenceStatus := licenceStatus |}),
       None).

(** ServerSnapshot do best effort to populate the server data and returns
    a blade or discrete *)
Definition ServerSnapshot (s : SupermicroX) : M World (option snapshot * option error) :=
  '(isBlade, _) <- IsBlade s ;;
  if isBlade : bool then bladeSnapshot s else discreteSnapshot s.

(** *** The aggregation in the words of its specification

    A fixed list of named accessors, run one after the other on the state
    the previous one left, up to the first that returns an error. *)

Definition errorOf {A} (m : M World (A * option error)) : M World (option error) :=
  '(_, err) <- m ;; ret err.

Definition discreteOrder (s : SupermicroX) : list (string * M World (option error)) :=
  [ ("Serial", errorOf (Serial s));
    ("Version", errorOf (Version s));
    ("Model", errorOf (Model s));
    ("Nics", errorOf (Nics s));
    ("Disks", errorOf (Disks s));
    ("BiosVersion", errorOf (BiosVersion s));
    ("CPU", errorOf (CPU s));
    ("Memory", errorOf (Memory s));
    ("Status", errorOf (Status s));
    ("Name", errorOf (Name s));
    ("TempC", errorOf (TempC s));
    ("PowerKw", errorOf (PowerKw s));
    ("PowerState", errorOf (PowerState s));
    ("License", errorOf (License s)) ].

Definition bladeOrder (s : SupermicroX) : list (string * M World (option error)) :=
  discreteOrder s ++
  [ ("Slot", errorOf (Slot s));
    ("ChassisSerial", errorOf (ChassisSerial s)) ].

Definition accessorOrder (isBlade : bool) (s : SupermicroX) :=
  if isBlade then bladeOrder s else discreteOrder s.

Inductive run :=
| Completed (w : World)
| Aborted (called : list string) (e : error) (w : World)
| Crashed (called : list string) (msg : string) (w : World).

(** [called] lists, latest first, the accessors invoked so far. *)
Fixpoint runInOrder (steps : list (string * M World (option error)))
  (called : list string) (w : World) : run :=
  match steps with
  | [] => Completed w
  | (name, m) :: rest =>
      match m w with
      | (Done None, w') => runInOrder rest (name :: called) w'
      | (Done (Some e), w') => Aborted (name :: called) e w'
      | (Panic msg, w') => Crashed (name :: called) msg w'
      end
  end.

Definition isBladeSnapshot (srv : snapshot) : bool :=
  match srv with
  | BladeSnapshot _ => true
  | DiscreteSnapshot _ => false
  end.

(** What a call returned agrees with a run of the accessors: a completed
    run with a snapshot of the given shape and no error, an aborted run
    with nil and the error, a crashed run with the panic; each in the
    state the run ended in. *)
Definition agrees (r : run)
  (res : outcome (option snapshot * option error) * World) (blade : bool) : Prop :=
  match r with
  | Completed w =>
      exists srv, res = (Done (Some srv, None), w) /\ isBladeSnapshot srv = blade
  | Aborted _ e w => res = (Done (None, Some e), w)
  | Crashed _ msg w => res = (Panic msg, w)
  end.

(** The fields every snapshot has, whatever its shape. *)
Definition snapshotVendor (srv : snapshot) : string :=
  match srv with
  | BladeSnapshot b => Blade_Vendor b
  | DiscreteSnapshot d => Discrete_Vendor d
  end.

Definition snapshotBmcAddress (srv : snapshot) : string :=
  match srv with
  | BladeSnapshot b => Blade_BmcAddress b
  | DiscreteSnapshot d => Discrete_BmcAddress d
  end.

Definition snapshotDisks (srv : snapshot) : list Disk :=
  match srv with
  | BladeSnapshot b => Blade_Disks b
  | DiscreteSnapshot d => Discrete_Disks d
  end.

Definition snapshotNics (srv : snapshot) : list Nic :=
  match srv with
  | BladeSnapshot b => Blade_Nics b
  | DiscreteSnapshot d => Discrete_Nics d
  end.

Definition snapshotCoreCount (srv : snapshot) : Z :=
  match srv with
  | BladeSnapshot b => Blade_ProcessorCoreCount b
  | DiscreteSnapshot d => Discrete_ProcessorCoreCount d
  end.

Definition snapshotThreadCount (srv : snapshot) : Z :=
  match srv with
  | BladeSnapshot b => Blade_ProcessorThreadCount b
  | DiscreteSnapshot d => Discrete_ProcessorThreadCount d
  end.

Definition snapshotStatus (srv : snapshot) : string :=
  match srv with
  | BladeSnapshot b => Blade_Status b
  | DiscreteSnapshot d => Discrete_Status d
  end.

(** *** post *)

(** [Header.Set]: the values under the key are replaced. *)
Definition Header_Set (key value : string) (req : Request) : Request :=
  {| Request_Method := Request_Method req;
     Request_URL := Request_URL req;
     Request_Body := Request_Body req;
     Request_Header :=
       filter (fun kv => negb (String.eqb (fst kv) key)) (Request_Header req)
       ++ [(key, value)];
     Request_Cookies := Request_Cookies req;
     Request_BasicAuth := Request_BasicAuth req |}.

(** More of the Go library: the text of a parsed URL, and url.Values with
    its encoding. *)
Variable url_String : string -> string.
Variable Values : Type.
Variable Values_Encode : Values -> string.

(** posts a urlencoded form to the given endpoint.  [urlValues] is a
    pointer, read only when no content type is given. *)
Definition post (s : SupermicroX) (endpoint : string) (urlValues : option Values)
  (form : string) (formDataContentType : string) : M World (Z * option error) :=
  err <- login s ;;
  match err with
  | Some e => ret (0, Some e)
  | None =>
      let raw := "https://" ++ ip s ++ "/cgi/" ++ endpoint in
      match url_Parse raw with
      | Some msg => ret (0, Some (libError net_url msg))
      | None =>
          built <-
            (if String.eqb formDataContentType ""
             then
               urlValues <- deref urlValues ;;
               match NewRequest "POST" (url_String raw) (Values_Encode urlValues) with
               | inr e => ret (inr e)
               | inl req =>
                   ret (inl (Header_Add "Content-Type"
                               "application/x-www-form-urlencoded" req))
               end
             else
               match NewRequest "POST" (url_String raw) form with
               | inr e => ret (inr e)
               | inl req =>
                   ret (inl (Header_Set "Content-Type" formDataContentType req))
               end) ;;
          match built with
          | inr e => ret (0, Some e)
          | inl req =>
              cookies <- Cookies raw ;;
              let req := addSessionCookies req cookies in
              r <- Do req ;;
              match r with
              | inr e => ret (0, Some e)
              | inl resp =>
                  let statusCode := Response_StatusCode resp in
                  match ReadAll resp with
                  | (_, Some e) => ret (statusCode, Some e)
                  | (_, None) => ret (statusCode, None)
                  end
              end
          end
      end
  end.


End Provider.
End supermicrox.

(** ** The SOAP helper of the HP c7000 provider *)

Module c7000.

(** Modelled from the spec: the envelope types of package c7000, whose
    declarations are not in xmlhelpers.go, with the fields wrapXML
    assigns.  Every one of them is held by value: wrapXML assigns struct
    literals, not pointers. *)
Record OaSessionKey := { OaSessionKey_Text : string }.
Record HpOaSessionKeyToken := { HpOaSessionKeyToken_OaSessionKey : OaSessionKey }.
Record Security := {
  Security_MustUnderstand : string;
  Security_HpOaSessionKeyToken : HpOaSessionKeyToken }.
Record Header := { Header_Security : Security }.
Record Body (A : Type) := { Body_Content : A }.
Arguments Body_Content {A} _.
Record Envelope (A : Type) := {
  Envelope_SOAPENV : string;
  Envelope_Xsi : string;
  Envelope_Xsd : string;
  Envelope_Wsu : string;
  Envelope_Wsse : string;
  Envelope_Hpoa : string;
  Envelope_Header : Header;
  Envelope_Body : Body A }.
Arguments Envelope_SOAPENV {A} _.
Arguments Envelope_Xsi {A} _.
Arguments Envelope_Xsd {A} _.
Arguments Envelope_Wsu {A} _.
Arguments Envelope_Wsse {A} _.
Arguments Envelope_Hpoa {A} _.
Arguments Envelope_Header {A} _.
Arguments Envelope_Body {A} _.

(** [Header{}], the value of a Header field nobody assigned. *)
Definition Header_zero : Header :=
  {| Header_Security :=
       {| Security_MustUnderstand := "";
          Security_HpOaSessionKeyToken :=
            {| HpOaSessionKeyToken_OaSessionKey := {| OaSessionKey_Text := "" |} |} |} |}.

(** wraps the XML to be sent in the SOAP envelope *)
Definition wrapXML {A : Type} (element : A) (sessionKey : string) : Envelope A :=
  let body := {| Body_Content := element |} in
  let doc :=
    {| Envelope_SOAPENV := "http://www.w3.org/2003/05/soap-envelope";
       Envelope_Xsi := "http://www.w3.org/2001/XMLSchema-instance";
       Envelope_Xsd := "http://www.w3.org/2001/XMLSchema";
       Envelope_Wsu := "http://docs.oasis-open.org/wss/2004/01/oasis-200401-wss-wssecurity-utility-1.0.xsd";
       Envelope_Wsse := "http://docs.oasis-open.org/wss/2004/01/oasis-200401-wss-wssecurity-secext-1.0.xsd";
       Envelope_Hpoa := "hpoa.xsd";
       Envelope_Header := Header_zero;
       Envelope_Body := body |} in
  if negb (String.eqb sessionKey "") then
    {| Envelope_SOAPENV := Envelope_SOAPENV doc;
       Envelope_Xsi := Envelope_Xsi doc;
       Envelope_Xsd := Envelope_Xsd doc;
       Envelope_Wsu := Envelope_Wsu doc;
       Envelope_Wsse := Envelope_Wsse doc;
       Envelope_Hpoa := Envelope_Hpoa doc;
       Envelope_Header :=
         {| Header_Security :=
              {| Security_MustUnderstand := "true";
                 Security_HpOaSessionKeyToken :=
                   {| HpOaSessionKeyToken_OaSessionKey :=
                        {| OaSessionKey_Text := sessionKey |} |} |} |};
       Envelope_Body := Envelope_Body doc |}
  else doc.

(** The text of the session-key token of a security header. *)
Definition sessionKeyOf (sec : Security) : string :=
  OaSessionKey_Text (HpOaSessionKeyToken_OaSessionKey (Security_HpOaSessionKeyToken sec)).

(** *** postXML *)

(** Modelled from the spec: the receiver of package c7000, whose
    declaration is not in xmlhelpers.go; postXML reads its address and
    uses its HTTP client, which lives in the world. *)
Record C7000 := { ip : string }.

Section Post.
Import http.
Local Open Scope go_scope.
Context {World : Type}.

(** The Go library: URL parsing, the text of a parsed URL, the transport. *)
Variable url_Parse : string -> option string.
Variable url_String : string -> string.
Variable httpClient_Do : Request -> World -> (Response + string) * World.

(** The opening test of [err] finds the result still nil and is passed;
    the debug dumps are left out. *)
Definition postXML (c : C7000) (data : string) : M World (Z * string * option error) :=
  let raw := "https://" ++ ip c ++ "/hpoa" in
  match url_Parse raw with
  | Some msg => ret (0, "", Some (libError net_url msg))
  | None =>
      match url_Parse (url_String raw) with
      | Some msg => ret (0, "", Some (libError net_url msg))
      | None =>
          let req :=
            Header_Add "Content-Type" "text/plain;charset=UTF-8"
              {| Request_Method := "POST"; Request_URL := url_String raw;
                 Request_Body := data; Request_Header := [];
                 Request_Cookies := []; Request_BasicAuth := None |} in
          fun w =>
            match httpClient_Do req w with
            | (inr msg, w') => (Done (0, "", Some (libError net_http msg)), w')
            | (inl resp, w') =>
                match ReadAll resp with
                | (_, Some e) => (Done (0, "", Some e), w')
                | (body, None) =>
                    (Done (Response_StatusCode resp, body, None), w')
                end
            end
      end
  end.

End Post.

End c7000.

(** ** A scripted target, to run the provider on

    The world counts the logins made and records the bodies sent.  A login
    fails when the script says so for its number; the target answers a
    POST by a document chosen from the query string and a GET by a fixed
    JSON body with a fixed status. *)

Module Fixture.
Import http supermicro devices supermicrox.

Record Bmc := { logins : nat; sent : list string }.

Definition boot : Bmc := {| logins := 0; sent := [] |}.

Record Script := {
  loginFails : nat -> bool;
  answer : string -> IPMI * option string;
  getStatus : Z;
  chassis : ChassisInfo * option string }.

Definition platform (sc : Script) : Platform Bmc :=
  {| httpLogin := fun _ w =>
       (if loginFails sc (logins w) then Some ErrLoginFailed else None,
        {| logins := S (logins w); sent := sent w |});
     url_Parse := fun _ => None;
     Jar_Cookies := fun _ _ => [{| Cookie_Name := "SID"; Cookie_Value := "c0ffee" |}];
     httpClient_Do := fun req w =>
       (inl {| Response_StatusCode :=
                 if String.eqb (Request_Method req) "GET" then getStatus sc else 200;
               Response_Body :=
                 if String.eqb (Request_Method req) "GET"
                 then Request_URL req else Request_Body req;
               Response_BodyErr := None |},
        {| logins := logins w;
           sent := sent w ++ [if String.eqb (Request_Method req) "GET"
                              then Request_URL req else Request_Body req] |});
     xml_Unmarshal := answer sc;
     json_Unmarshal := fun _ => chassis sc;
     unicode_ToLower := fun s => s;
     Sprintf_Extended := fun _ _ => ", Extended";
     Errorf := fun e => e;
     StandardizeProcessorName := fun s => s;
     VendorID := "Supermicro" |}.

Definition node (id : Z) (serial power temp : string) : Node :=
  {| Node_ID := id; Node_NodeSerial := serial; Node_Power := power;
     Node_SystemTemp := temp |}.

Definition withFru (serial part : string) : IPMI :=
  {| IPMI_Bios := None; IPMI_CPU := []; IPMI_ConfigInfo := None;
     IPMI_Dimm := [];
     IPMI_FruInfo :=
       Some {| FruInfo_Board :=
                 Some {| Board_SerialNum := serial; Board_PartNum := part |} |};
     IPMI_GenericInfo := None; IPMI_HealthInfo := None;
     IPMI_PlatformInfo := None; IPMI_PowerInfo := None;
     IPMI_NodeInfo := None; IPMI_BiosLicense := None |}.

Definition withNodes (nodes : list Node) : IPMI :=
  {| IPMI_Bios := None; IPMI_CPU := []; IPMI_ConfigInfo := None;
     IPMI_Dimm := []; IPMI_FruInfo := None; IPMI_GenericInfo := None;
     IPMI_HealthInfo := None; IPMI_PlatformInfo := None;
     IPMI_PowerInfo := None;
     IPMI_NodeInfo := Some {| NodeInfo_Nodes := nodes |};
     IPMI_BiosLicense := None |}.

Definition withSmbios (cpus : list supermicro.CPU) (dimms : list string) : IPMI :=
  {| IPMI_Bios := Some {| Bios_Version := "3.1" |}; IPMI_CPU := cpus;
     IPMI_ConfigInfo := None;
     IPMI_Dimm := map (fun sz => {| Dimm_Size := sz |}) dimms;
     IPMI_FruInfo := None; IPMI_GenericInfo := None; IPMI_HealthInfo := None;
     IPMI_PlatformInfo := None; IPMI_PowerInfo := None;
     IPMI_NodeInfo := None; IPMI_BiosLicense := None |}.

Definition withPower (status : string) : IPMI :=
  {| IPMI_Bios := None; IPMI_CPU := []; IPMI_ConfigInfo := None;
     IPMI_Dimm := []; IPMI_FruInfo := None; IPMI_GenericInfo := None;
     IPMI_HealthInfo := None; IPMI_PlatformInfo := None;
     IPMI_PowerInfo := Some {| PowerInfo_Power := {| Power_Status := status |} |};
     IPMI_NodeInfo := None; IPMI_BiosLicense := None |}.

(** A target described by its board serial, its nodes, its processors and
    its memory modules. *)
Definition answers (serial : string) (nodes : option (list Node))
  (cpus : list supermicro.CPU) (dimms : list string) (key : string) : IPMI * option string :=
  if String.eqb key "FRU_INFO.XML=(0,0)" then (withFru serial "X10DRT", None)
  else if String.eqb key "Get_NodeInfoReadings.XML=(0,0)" then
    (match nodes with Some ns => withNodes ns | None => IPMI_zero end, None)
  else if String.eqb key "SMBIOS_INFO.XML=(0,0)" then (withSmbios cpus dimms, None)
  else if String.eqb key "POWER_INFO.XML=(0,0)" then (withPower "ON", None)
  else (IPMI_zero, None).

Definition goodChassis : ChassisInfo * option string :=
  ({| SerialNumber := "CH42";
      Error := {| Code := ""; Message := ""; ExtendedMessage := [] |} |}, None).

Definition script (fails : nat -> bool) (serial : string)
  (nodes : option (list Node)) (cpus : list supermicro.CPU) (dimms : list string)
  (status : Z) : Script :=
  {| loginFails := fails;
     answer := answers serial nodes cpus dimms;
     getStatus := status;
     chassis := goodChassis |}.

Definition never (n : nat) : bool := false.
Definition onlyFirst (n : nat) : bool := Nat.eqb n 0.
Definition always (n : nat) : bool := true.

Definition target : SupermicroX :=
  {| ip := "10.0.0.7"; username := "ADMIN"; password := "ADMIN" |}.

Definition twoNodes : list Node :=
  [ node 0 "ABC" "500" "31"; node 1 "XYZ" "900" "33" ].

Definition xeon (core : string) : supermicro.CPU :=
  {| CPU_Version := "Intel(R) Xeon(R)"; CPU_Core := core |}.

(** A healthy blade with two nodes, eight cores and two modules. *)
Definition blade : Platform Bmc :=
  platform (script never "XYZ" (Some twoNodes) [xeon "8"]
              ["8192 MB"; "8192 MB"] 200).

(** The same blade reporting a core count that is not a number. *)
Definition badCores : Platform Bmc :=
  platform (script never "XYZ" (Some twoNodes) [xeon "x"]
              ["8192 MB"; "8192 MB"] 200).

(** The same blade refusing the first login only. *)
Definition slowStart : Platform Bmc :=
  platform (script onlyFirst "XYZ" (Some twoNodes) [xeon "8"]
              ["8192 MB"; "8192 MB"] 200).

(** A target that refuses every login. *)
Definition locked : Platform Bmc :=
  platform (script always "XYZ" (Some twoNodes) [xeon "8"]
              ["8192 MB"; "8192 MB"] 200).

(** A firmware without the Redfish chassis page. *)
Definition noRedfish : Platform Bmc :=
  platform (script never "XYZ" (Some twoNodes) [xeon "8"]
              ["8192 MB"; "8192 MB"] 404).

Definition bmcAt (n : nat) (bodies : list string) : Bmc :=
  {| logins := n; sent := bodies |}.

Definition chassisURL : string := "https://10.0.0.7/redfish/v1/Chassis/1".

Definition chassisRequest : Request :=
  {| Request_Method := "GET"; Request_URL := chassisURL; Request_Body := "";
     Request_Header := []; Request_Cookies := []; Request_BasicAuth := None |}.

Definition page (status : Z) : Response :=
  {| Response_StatusCode := status; Response_Body := chassisURL;
     Response_BodyErr := None |}.

(** Logins are refused at one count only. *)
Definition onlyAt (k n : nat) : bool := Nat.eqb n k.

(** The blade refusing the login of the Memory call of an aggregation. *)
Definition memoryDown : Platform Bmc :=
  platform (script (onlyAt 9) "XYZ" (Some twoNodes) [xeon "8"]
              ["8192 MB"; "8192 MB"] 200).

(** A module slot that reports no size. *)
Definition emptySlot : Platform Bmc :=
  platform (script never "XYZ" (Some twoNodes) [xeon "8"]
              ["8192 MB"; "No DIMM"; "4096 MB"] 200).

(** The SMBIOS answer is cut short: the decoder hands back what it read
    and an error. *)
Definition garbled : Platform Bmc :=
  platform
    {| loginFails := never;
       answer := fun key =>
         if String.eqb key "SMBIOS_INFO.XML=(0,0)"
         then (withSmbios [xeon "8"] ["8192 MB"], Some "unexpected EOF")
         else answers "XYZ" (Some twoNodes) [xeon "8"] ["8192 MB"] key;
       getStatus := 200;
       chassis := goodChassis |}.

(** A rack server: no node-info sub-document. *)
Definition standalone : Platform Bmc :=
  platform (script never "XYZ" None [xeon "8"] ["8192 MB"; "8192 MB"] 200).

(** A board whose serial is none of the nodes'. *)
Definition stranger : Platform Bmc :=
  platform (script never "QQQ" (Some twoNodes) [xeon "8"]
              ["8192 MB"; "8192 MB"] 200).

(** The serial appears twice in the node list. *)
Definition listedTwice : Platform Bmc :=
  platform (script never "XYZ"
              (Some [node 0 "xyz" "500" "31"; node 1 "ABC" "700" "35";
                     node 3 "XYZ" "900" "33"])
              [xeon "8"] ["8192 MB"; "8192 MB"] 200).

(** The FRU answer has no board. *)
Definition boardless : Platform Bmc :=
  platform
    {| loginFails := never;
       answer := fun key =>
         if String.eqb key "FRU_INFO.XML=(0,0)" then (IPMI_zero, None)
         else answers "XYZ" (Some twoNodes) [xeon "8"] ["8192 MB"] key;
       getStatus := 200;
       chassis := goodChassis |}.

Definition withGeneric (fw mac : string) (nested : option Generic) : IPMI :=
  {| IPMI_Bios := None; IPMI_CPU := []; IPMI_ConfigInfo := None;
     IPMI_Dimm := []; IPMI_FruInfo := None;
     IPMI_GenericInfo :=
       Some {| GenericInfo_IpmiFwVersion := fw; GenericInfo_BmcMac := mac;
               GenericInfo_Generic := nested |};
     IPMI_HealthInfo := None; IPMI_PlatformInfo := None;
     IPMI_PowerInfo := None; IPMI_NodeInfo := None; IPMI_BiosLicense := None |}.

Definition withPlatform (m1 m2 m3 m4 : string) : IPMI :=
  {| IPMI_Bios := None; IPMI_CPU := []; IPMI_ConfigInfo := None;
     IPMI_Dimm := []; IPMI_FruInfo := None; IPMI_GenericInfo := None;
     IPMI_HealthInfo := None;
     IPMI_PlatformInfo :=
       Some {| PlatformInfo_MbMacAddr1 := m1; PlatformInfo_MbMacAddr2 := m2;
               PlatformInfo_MbMacAddr3 := m3; PlatformInfo_MbMacAddr4 := m4 |};
     IPMI_PowerInfo := None; IPMI_NodeInfo := None; IPMI_BiosLicense := None |}.

Definition withHealth (health : string) : IPMI :=
  {| IPMI_Bios := None; IPMI_CPU := []; IPMI_ConfigInfo := None;
     IPMI_Dimm := []; IPMI_FruInfo := None; IPMI_GenericInfo := None;
     IPMI_HealthInfo := Some {| HealthInfo_Health := health |};
     IPMI_PlatformInfo := None; IPMI_PowerInfo := None; IPMI_NodeInfo := None;
     IPMI_BiosLicense := None |}.

(** A board with an older firmware layout: the firmware version and the
    BMC address sit in the nested element; three of four ports are wired. *)
Definition wired : Platform Bmc :=
  platform
    {| loginFails := never;
       answer := fun key =>
         if String.eqb key "GENERIC_INFO.XML=(0,0)"
         then (withGeneric "" ""
                 (Some {| Generic_IpmiFwVersion := "03.40";
                          Generic_BmcMac := "0c:c4:7a:00:00:01" |}), None)
         else if String.eqb key "Get_PlatformInfo.XML=(0,0)"
         then (withPlatform "0c:c4:7a:00:00:02" "0c:c4:7a:00:00:03" ""
                 "0c:c4:7a:00:00:05", None)
         else if String.eqb key "SENSOR_INFO_FOR_SYS_HEALTH.XML=(1,ff)"
         then (withHealth "1", None)
         else answers "XYZ" (Some twoNodes) [xeon "8"] ["8192 MB"] key;
       getStatus := 200;
       chassis := goodChassis |}.

(** The Redfish chassis page answers with an error object. *)
Definition chassisFault : Platform Bmc :=
  platform
    {| loginFails := never;
       answer := answers "XYZ" (Some twoNodes) [xeon "8"] ["8192 MB"];
       getStatus := 200;
       chassis :=
         ({| SerialNumber := "";
             Error := {| Code := "1"; Message := "bad";
                         ExtendedMessage := [] |} |}, None) |}.

(** The same page with a serial number and two extended messages, the
    second a null entry, on a target that formats them with their index. *)
Definition extendedTwo : list (option ErrorExtended) :=
  [ Some {| MessageId := "Base.1.0.GeneralError" |}; None ].

Definition showExtended (i : Z) (x : option ErrorExtended) : string :=
  ", Extended[" ++ String (ascii_of_nat (48 + Z.to_nat i)) "" ++ "]: "
  ++ match x with
     | Some m => "&{" ++ MessageId m ++ "}"
     | None => "<nil>"
     end.

Definition chassisFaultExtended : Platform Bmc :=
  {| httpLogin := @httpLogin _ chassisFault;
     url_Parse := @url_Parse _ chassisFault;
     Jar_Cookies := @Jar_Cookies _ chassisFault;
     httpClient_Do := @httpClient_Do _ chassisFault;
     xml_Unmarshal := @xml_Unmarshal _ chassisFault;
     json_Unmarshal := fun _ =>
       ({| SerialNumber := "S15";
           Error := {| Code := "1"; Message := "bad";
                       ExtendedMessage := extendedTwo |} |}, None);
     unicode_ToLower := @unicode_ToLower _ chassisFault;
     Sprintf_Extended := showExtended;
     Errorf := @Errorf _ chassisFault;
     StandardizeProcessorName := @StandardizeProcessorName _ chassisFault;
     VendorID := @VendorID _ chassisFault |}.

(** A cookie jar with more than the session cookie in it. *)
Definition mixedJar : list Cookie :=
  [ {| Cookie_Name := "lang"; Cookie_Value := "en" |};
    {| Cookie_Name := "SID"; Cookie_Value := "c0ffee" |};
    {| Cookie_Name := "SID"; Cookie_Value := "" |} ].

(** An Onboard Administrator that answers every envelope with a fixed
    status and echoes it. *)
Definition oa : c7000.C7000 := {| c7000.ip := "10.0.0.9" |}.

Definition oaDo (status : Z) (bodyErr : option string) (req : Request) (w : Bmc)
  : (Response + string) * Bmc :=
  (inl {| Response_StatusCode := status; Response_Body := Request_Body req;
          Response_BodyErr := bodyErr |},
   {| logins := logins w; sent := sent w ++ [Request_URL req] |}).

(** Form values as pairs, encoded in the order given. *)
Definition encodePairs (kvs : list (string * string)) : string :=
  String.concat "&" (map (fun kv => fst kv ++ "=" ++ snd kv) kvs).

End Fixture.

(** * Properties *)

Module Props.
Import http supermicro devices supermicrox.
Local Open Scope go_scope.

(** ** Integers *)

Lemma wrap64_small (z : Z) : Go.minInt <= z <= Go.maxInt -> Go.wrap64 z = z.
Proof.
  unfold Go.wrap64, Go.minInt, Go.maxInt. intros H.
  rewrite Z.mod_small; lia.
Qed.

Lemma wrap64_range (z : Z) : Go.minInt <= Go.wrap64 z <= Go.maxInt.
Proof.
  unfold Go.wrap64, Go.minInt, Go.maxInt.
  pose proof (Z.mod_pos_bound (z + 2 ^ 63) (2 ^ 64) ltac:(lia)). lia.
Qed.

Lemma wrap64_add_l (a b : Z) : Go.wrap64 (Go.wrap64 a + b) = Go.wrap64 (a + b).
Proof.
  unfold Go.wrap64. f_equal.
  replace ((a + 2 ^ 63) mod 2 ^ 64 - 2 ^ 63 + b + 2 ^ 63)
    with ((a + 2 ^ 63) mod 2 ^ 64 + b) by lia.
  rewrite Zplus_mod_idemp_l. f_equal. lia.
Qed.

Lemma fold_int_add (sizes : list Z) :
  forall mem, Go.minInt <= mem <= Go.maxInt ->
    fold_left Go.int_add sizes mem = Go.wrap64 (mem + Go.total sizes).
Proof.
  induction sizes as [|x sizes IH]; intros mem Hmem; simpl.
  - rewrite Z.add_0_r. symmetry. now apply wrap64_small.
  - rewrite IH by apply wrap64_range.
    unfold Go.int_add. rewrite wrap64_add_l. f_equal. lia.
Qed.

Section Provider.
Context {World : Type} {P : Platform World}.

(** ** The monad *)

Lemma bind_done {A B} (m : M World A) (k : A -> M World B) w a w' :
  m w = (Done a, w') -> bind m k w = k a w'.
Proof. unfold bind. now intros ->. Qed.

Lemma bind_panic {A B} (m : M World A) (k : A -> M World B) w msg w' :
  m w = (Panic msg, w') -> bind m k w = (Panic msg, w').
Proof. unfold bind. now intros ->. Qed.

(** ** query *)

(** A failed login ends the query with no document. *)
Lemma query_login_failed s key w e w' :
  httpLogin s w = (Some e, w') ->
  query s key w = (Done (None, Some e), w').
Proof.
  intros H. unfold query, bind, login. now rewrite H.
Qed.

Ltac returns := do 3 eexists; split; [reflexivity | congruence].

(** query never panics, and an error-free query hands back a document. *)
Lemma query_returns s key w :
  exists ipmi err w',
    query s key w = (Done (ipmi, err), w') /\ (err = None -> ipmi <> None).
Proof.
  unfold query, bind, login, Cookies, Do, ret.
  destruct (httpLogin s w) as [[e|] w1]; [returns|].
  destruct (NewRequest _ _ _) as [req|e]; [|returns].
  destruct (url_Parse _) as [msg|]; [returns|].
  destruct (httpClient_Do _ w1) as [[resp|msg] w2]; [|returns].
  destruct (ReadAll resp) as [payload [e|]]; [returns|].
  destruct (xml_Unmarshal payload) as [ipmi [msg|]]; returns.
Qed.

(** ** Serial *)

(** C2.  When the FRU-info query yields a decoded document, Serial returns
    the board serial lower-cased and no error if the document has a board,
    and the empty string with ErrInvalidSerial if the FRU-info
    sub-document or its board is absent. *)
Theorem Serial_board_or_invalid s w ipmi w' :
  query s "FRU_INFO.XML=(0,0)" w = (Done (Some ipmi, None), w') ->
  (forall fru board,
      IPMI_FruInfo ipmi = Some fru -> FruInfo_Board fru = Some board ->
      Serial s w = (Done (ToLower (Board_SerialNum board), None), w'))
  /\ (IPMI_FruInfo ipmi = None
      \/ (exists fru, IPMI_FruInfo ipmi = Some fru /\ FruInfo_Board fru = None) ->
      Serial s w = (Done ("", Some ErrInvalidSerial), w')).
Proof.
  intros Hq. unfold Serial. rewrite (bind_done _ _ _ _ _ Hq). cbn.
  split.
  - intros fru board -> ->. reflexivity.
  - intros [-> | (fru & -> & ->)]; reflexivity.
Qed.

(** ** PowerState *)

(** C8.  When the power-info query yields a decoded document, PowerState
    returns the status string lower-cased and no error if the power-info
    sub-document is there, and the literal "unknow" and no error if it is
    absent. *)
Theorem PowerState_lower_or_unknow s w ipmi w' :
  query s "POWER_INFO.XML=(0,0)" w = (Done (Some ipmi, None), w') ->
  (forall pi, IPMI_PowerInfo ipmi = Some pi ->
      PowerState s w
      = (Done (ToLower (Power_Status (PowerInfo_Power pi)), None), w'))
  /\ (IPMI_PowerInfo ipmi = None ->
      PowerState s w = (Done ("unknow", None), w')).
Proof.
  intros Hq. unfold PowerState. rewrite (bind_done _ _ _ _ _ Hq). cbn.
  split; [intros pi -> | intros ->]; reflexivity.
Qed.

(** ** IsBlade *)

(** C4.  When the node-info query yields a decoded document, IsBlade
    returns no error, and returns true exactly when some node entry of the
    node-info sub-document has a non-empty node serial; with the
    sub-document absent it returns false. *)
Theorem IsBlade_iff_some_serial s w ipmi w' :
  query s "Get_NodeInfoReadings.XML=(0,0)" w = (Done (Some ipmi, None), w') ->
  exists isBlade,
    IsBlade s w = (Done (isBlade, None), w')
    /\ (isBlade = true <->
        exists ni node,
          IPMI_NodeInfo ipmi = Some ni /\ In node (NodeInfo_Nodes ni)
          /\ Node_NodeSerial node <> "")
    /\ (IPMI_NodeInfo ipmi = None -> isBlade = false).
Proof.
  intros Hq. unfold IsBlade. rewrite (bind_done _ _ _ _ _ Hq). cbn.
  destruct (IPMI_NodeInfo ipmi) as [ni|].
  - destruct (existsb _ _) eqn:E; eexists; (split; [reflexivity|]); split;
      try discriminate.
    + split; [intros _|reflexivity].
      apply existsb_exists in E as (node & Hin & Hne).
      exists ni, node. repeat split; trivial.
      intros Heq. rewrite Heq in Hne. discriminate.
    + split; [discriminate|]. intros (ni' & node & [= <-] & Hin & Hne).
      assert (existsb (fun node => negb (Node_NodeSerial node =? "")%string)
                (NodeInfo_Nodes ni) = true) as E'.
      { apply existsb_exists. exists node. split; trivial.
        destruct (String.eqb_spec (Node_NodeSerial node) ""); [contradiction|reflexivity]. }
      congruence.
  - exists false. split; [reflexivity|]. split; [|reflexivity].
    split; [discriminate|]. intros (ni & node & [=] & _).
Qed.

(** ** Memory *)

Lemma Memory_loop_sums dimms sizes :
  Forall2 (fun dimm size =>
             Go.Atoi (Go.TrimSuffix (Dimm_Size dimm) " MB") = (size, None))
    dimms sizes ->
  forall mem, Memory_loop dimms mem = inr (fold_left Go.int_add sizes mem).
Proof.
  induction 1 as [|dimm size dimms sizes Hd _ IH]; intros mem; cbn.
  - reflexivity.
  - rewrite Hd. apply IH.
Qed.

(** C5.  When the SMBIOS query yields a decoded document and every
    module's size, with its " MB" suffix stripped, parses as an integer,
    Memory returns the sum of these integers (an int, so modulo 2^64)
    divided by 1024 with truncation, and no error; for modules
    {8192 MB, 8192 MB} that is 16. *)
Theorem Memory_sum_div_1024 s w ipmi w' sizes :
  query s "SMBIOS_INFO.XML=(0,0)" w = (Done (Some ipmi, None), w') ->
  Forall2 (fun dimm size =>
             Go.Atoi (Go.TrimSuffix (Dimm_Size dimm) " MB") = (size, None))
    (IPMI_Dimm ipmi) sizes ->
  Memory s w = (Done (Z.quot (Go.wrap64 (Go.total sizes)) 1024, None), w')
  /\ (Go.minInt <= Go.total sizes <= Go.maxInt ->
      Memory s w = (Done (Z.quot (Go.total sizes) 1024, None), w'))
  /\ (map Dimm_Size (IPMI_Dimm ipmi) = ["8192 MB"; "8192 MB"] ->
      Memory s w = (Done (16, None), w')).
Proof.
  intros Hq Hsizes.
  assert (Memory s w
          = (Done (Z.quot (Go.wrap64 (Go.total sizes)) 1024, None), w')) as Hm.
  { unfold Memory. rewrite (bind_done _ _ _ _ _ Hq). cbn.
    rewrite (Memory_loop_sums _ _ Hsizes).
    rewrite fold_int_add by (unfold Go.minInt, Go.maxInt; lia).
    reflexivity. }
  split; [exact Hm|]. split.
  - intros Hr. rewrite Hm, wrap64_small by exact Hr. reflexivity.
  - intros Hmods. rewrite Hm.
    destruct Hsizes as [|d1 s1 ? ? H1 Hsizes]; [discriminate|].
    destruct Hsizes as [|d2 s2 ? ? H2 Hsizes]; [discriminate|].
    destruct Hsizes; [|discriminate].
    cbn in Hmods. injection Hmods as E1 E2.
    rewrite E1 in H1. rewrite E2 in H2.
    vm_compute in H1, H2. injection H1 as <-. injection H2 as <-.
    reflexivity.
Qed.

(** C10.  When the SMBIOS query fails before a document is decoded (a
    failed login, say) it returns a nil document with the error; Memory
    reads the document before looking at the error and panics on the nil
    pointer, so the error never reaches the caller.  BiosVersion, on the
    same query, returns the error. *)
Theorem Memory_panics_on_failed_query s w e w' :
  query s "SMBIOS_INFO.XML=(0,0)" w = (Done (None, Some e), w') ->
  Memory s w = (Panic nilDeref, w')
  /\ BiosVersion s w = (Done ("", Some e), w').
Proof.
  intros Hq. split.
  - unfold Memory. rewrite (bind_done _ _ _ _ _ Hq). reflexivity.
  - unfold BiosVersion. rewrite (bind_done _ _ _ _ _ Hq). reflexivity.
Qed.

(** ** PowerKw *)

(** The literal 0.9 is the double within half a unit in the last place of
    9/10, and 0.75 is 3/4. *)
Lemma float64_literals :
  Go.float64_0_9 = S754_finite false 8106479329266893 (-53)
  /\ Z.abs (10 * 8106479329266893 - 9 * 2 ^ 53) * 2 <= 10
  /\ Go.float64_0_75 = S754_finite false 6755399441055744 (-53)
  /\ 4 * 6755399441055744 = 3 * 2 ^ 53.
Proof. repeat split. vm_compute. discriminate. Qed.

Lemma ownNode_first serial pre node post :
  Forall (fun n => ToLower (Node_NodeSerial n) <> serial) pre ->
  ToLower (Node_NodeSerial node) = serial ->
  ownNode serial (pre ++ node :: post)%list = Some node.
Proof.
  intros Hpre Hnode. unfold ownNode.
  induction Hpre as [|n pre Hn _ IH]; cbn.
  - now rewrite (proj2 (String.eqb_eq _ _) Hnode).
  - destruct (String.eqb_spec (ToLower (Node_NodeSerial n)) serial);
      [contradiction | exact IH].
Qed.

(** C3.  When the node-info query yields a document with a node-info
    sub-document and Serial then returns the device's own serial, PowerKw
    takes the first node whose lower-cased node serial equals it, parses
    the node's power field as an integer and returns it, as a float64,
    divided by 1000; for nodes ABC/500 and XYZ/900 and own serial "xyz"
    that is 0.9, and a matching node reporting 750 gives 0.75. *)
Theorem PowerKw_own_node_watts s w ipmi w1 ni serial w2 :
  query s "Get_NodeInfoReadings.XML=(0,0)" w = (Done (Some ipmi, None), w1) ->
  IPMI_NodeInfo ipmi = Some ni ->
  Serial s w1 = (Done (serial, None), w2) ->
  (forall pre node post value,
      NodeInfo_Nodes ni = (pre ++ node :: post)%list ->
      Forall (fun n => ToLower (Node_NodeSerial n) <> serial) pre ->
      ToLower (Node_NodeSerial node) = serial ->
      Go.Atoi (Node_Power node) = (value, None) ->
      PowerKw s w
      = (Done (Go.float64_div (Go.float64_of_int value) float64_1000, None), w2)
        /\ (value = 750 -> PowerKw s w = (Done (Go.float64_0_75, None), w2)))
  /\ (forall n1 n2,
        NodeInfo_Nodes ni = [n1; n2] ->
        Node_NodeSerial n1 = "ABC" -> Node_Power n1 = "500" ->
        Node_NodeSerial n2 = "XYZ" -> Node_Power n2 = "900" ->
        serial = "xyz" ->
        PowerKw s w = (Done (Go.float64_0_9, None), w2)).
Proof.
  intros Hq Hni Hs.
  assert (forall node value,
             ownNode serial (NodeInfo_Nodes ni) = Some node ->
             Go.Atoi (Node_Power node) = (value, None) ->
             PowerKw s w
             = (Done (Go.float64_div (Go.float64_of_int value) float64_1000,
                      None), w2)) as Hgen.
  { intros node value Hown Hv. unfold PowerKw.
    rewrite (bind_done _ _ _ _ _ Hq). cbn. rewrite Hni.
    rewrite (bind_done _ _ _ _ _ Hs). cbn. rewrite Hown, Hv. reflexivity. }
  split.
  - intros pre node post value Hnodes Hpre Hnode Hv.
    assert (ownNode serial (NodeInfo_Nodes ni) = Some node) as Hown
        by (rewrite Hnodes; now apply ownNode_first).
    split; [exact (Hgen node value Hown Hv)|].
    intros ->. rewrite (Hgen node 750 Hown Hv). reflexivity.
  - intros n1 n2 Hnodes Hs1 Hp1 Hs2 Hp2 ->.
    rewrite (Hgen n2 900).
    + reflexivity.
    + rewrite Hnodes. unfold ownNode, ToLower. cbn. rewrite Hs1, Hs2. reflexivity.
    + rewrite Hp2. reflexivity.
Qed.

(** ** get *)

(** The request get sends, once the URL is accepted. *)
Lemma get_sends (s : SupermicroX) (endpoint : string) (authentication : bool)
  (w w1 w2 : World) req r :
  httpLogin s w = (None, w1) ->
  NewRequest "GET" ("https://" ++ ip s ++ "/" ++ endpoint) "" = inl req ->
  url_Parse ("https://" ++ ip s) = None ->
  httpClient_Do
    (let req := addSessionCookies req (Jar_Cookies ("https://" ++ ip s) w1) in
     if authentication then SetBasicAuth (username s) (password s) req else req)
    w1 = (r, w2) ->
  get s endpoint authentication w
  = match r with
    | inr msg => (Done (None, Some (libError net_http msg)), w2)
    | inl resp =>
        match Response_BodyErr resp with
        | Some msg => (Done (None, Some (libError io_ioutil msg)), w2)
        | None =>
            if Response_StatusCode resp =? 404
            then (Done (None, Some ErrPageNotFound), w2)
            else (Done (Some (Response_Body resp), None), w2)
        end
    end.
Proof.
  intros Hl Hreq Hurl Hdo.
  unfold get, bind, login, Cookies, Do, ret.
  rewrite Hl. cbn zeta in Hdo |- *.
  replace (("https://" ++ ip s) ++ "/" ++ endpoint)
    with ("https://" ++ ip s ++ "/" ++ endpoint) by reflexivity.
  rewrite Hreq, Hurl, Hdo.
  destruct r as [resp|msg]; [|reflexivity].
  unfold ReadAll. destruct (Response_BodyErr resp); [reflexivity|].
  destruct (Response_StatusCode resp =? 404); reflexivity.
Qed.

(** C9.  When get has logged in and its request URL is accepted, whatever
    the transport hands back decides the result: a response with status
    404 whose body was read gives ErrPageNotFound and no payload; a
    response with any other status whose body was read gives the body and
    no error; a transport failure, of the round trip or of the body read,
    gives that failure, which is never ErrPageNotFound. *)
Theorem get_page_not_found (s : SupermicroX) (endpoint : string)
  (authentication : bool) (w w1 w2 : World) req r :
  httpLogin s w = (None, w1) ->
  NewRequest "GET" ("https://" ++ ip s ++ "/" ++ endpoint) "" = inl req ->
  url_Parse ("https://" ++ ip s) = None ->
  httpClient_Do
    (let req := addSessionCookies req (Jar_Cookies ("https://" ++ ip s) w1) in
     if authentication then SetBasicAuth (username s) (password s) req else req)
    w1 = (r, w2) ->
  (forall resp,
      r = inl resp -> Response_BodyErr resp = None ->
      (Response_StatusCode resp = 404 ->
       get s endpoint authentication w = (Done (None, Some ErrPageNotFound), w2))
      /\ (Response_StatusCode resp <> 404 ->
          get s endpoint authentication w
          = (Done (Some (Response_Body resp), None), w2)))
  /\ (forall msg,
        r = inr msg ->
        get s endpoint authentication w
        = (Done (None, Some (libError net_http msg)), w2)
        /\ libError net_http msg <> ErrPageNotFound)
  /\ (forall resp msg,
        r = inl resp -> Response_BodyErr resp = Some msg ->
        get s endpoint authentication w
        = (Done (None, Some (libError io_ioutil msg)), w2)
        /\ libError io_ioutil msg <> ErrPageNotFound).
Proof.
  intros Hl Hreq Hurl Hdo.
  pose proof (get_sends s endpoint authentication w w1 w2 req r Hl Hreq Hurl Hdo)
    as Hget.
  split; [|split].
  - intros resp -> Hbody. rewrite Hbody in Hget. split.
    + intros H404. rewrite Hget, H404. reflexivity.
    + intros Hother. rewrite Hget.
      destruct (Z.eqb_spec (Response_StatusCode resp) 404);
        [contradiction|reflexivity].
  - intros msg ->. split; [exact Hget|discriminate].
  - intros resp msg -> Hbody. rewrite Hbody in Hget.
    split; [exact Hget|discriminate].
Qed.

(** ** ServerSnapshot *)

(** One guarded call of the source against one step of the ordered run. *)
Lemma agrees_step {A} (m : M World (A * option error)) k name rest called w blade :
  (forall v w', m w = (Done (v, None), w') ->
     agrees (runInOrder rest (name :: called) w') (k v w') blade) ->
  agrees (runInOrder ((name, errorOf m) :: rest) called w) (orReturn m k w) blade.
Proof.
  intros Hk. cbn [runInOrder]. unfold errorOf, orReturn, bind, ret.
  destruct (m w) as [[[v [e|]]|msg] w'] eqn:E; cbn.
  - reflexivity.
  - now apply Hk.
  - reflexivity.
Qed.

Ltac run_accessors :=
  repeat (apply agrees_step; intros ? ? _; cbv beta;
          repeat match goal with
                 | v : (_ * _)%type |- _ => destruct v
                 end).

Lemma discreteSnapshot_runs s w1 bmcType w2 :
  HardwareType s w1 = (Done bmcType, w2) ->
  agrees (runInOrder (discreteOrder s) [] w2) (discreteSnapshot s w1) false.
Proof.
  intros Hh. unfold discreteSnapshot. rewrite (bind_done _ _ _ _ _ Hh).
  unfold discreteOrder. run_accessors.
  cbn. eexists. split; reflexivity.
Qed.

Lemma bladeSnapshot_runs s w1 bmcType w2 :
  HardwareType s w1 = (Done bmcType, w2) ->
  agrees (runInOrder (bladeOrder s) [] w2) (bladeSnapshot s w1) true.
Proof.
  intros Hh. unfold bladeSnapshot. rewrite (bind_done _ _ _ _ _ Hh).
  unfold bladeOrder, discreteOrder. cbn [app]. run_accessors.
  cbn. eexists. split; reflexivity.
Qed.

(** The probe and the hardware-type accessor always return. *)
Lemma IsBlade_returns s w :
  exists isBlade err w', IsBlade s w = (Done (isBlade, err), w')
                         /\ (err <> None -> isBlade = false).
Proof.
  destruct (query_returns s "Get_NodeInfoReadings.XML=(0,0)" w)
    as (ipmi & err & w' & Hq & Hdoc).
  unfold IsBlade. rewrite (bind_done _ _ _ _ _ Hq).
  destruct err as [e|]; cbn.
  - do 3 eexists. split; reflexivity.
  - destruct ipmi as [ipmi|]; [|now destruct Hdoc]. cbn.
    destruct (IPMI_NodeInfo ipmi) as [ni|];
      [destruct (existsb _ _)|]; do 3 eexists; (split; [reflexivity|congruence]).
Qed.

Lemma HardwareType_returns s w :
  exists bmcType w', HardwareType s w = (Done bmcType, w').
Proof.
  destruct (query_returns s "FRU_INFO.XML=(0,0)" w)
    as (ipmi & err & w' & Hq & Hdoc).
  unfold HardwareType, Model, bind, deref, ret. rewrite Hq.
  destruct err as [e|]; [now eauto|].
  destruct ipmi as [ipmi|]; [|now destruct Hdoc].
  destruct (IPMI_FruInfo ipmi) as [fru|]; [destruct (FruInfo_Board fru)|];
    eauto.
Qed.

(** The accessors a run has called are an initial stretch of its list. *)
Lemma runInOrder_called (steps : list (string * M World (option error))) :
  forall called w called' e w',
    runInOrder steps called w = Aborted called' e w' ->
    exists k, (1 <= k <= List.length steps)%nat
              /\ called' = (rev (firstn k (map fst steps)) ++ called)%list.
Proof.
  induction steps as [|[name m] rest IH]; intros called w called' e w'; cbn.
  - discriminate.
  - destruct (m w) as [[[e1|]|msg] w1].
    + intros [= <- <- <-]. exists 1%nat. split; [lia|reflexivity].
    + intros Hr. destruct (IH _ _ _ _ _ Hr) as (k & Hk & ->).
      exists (S k). split; [lia|]. cbn. now rewrite <- app_assoc.
    + discriminate.
Qed.

(** C1.  After the blade probe and the hardware-type lookup, ServerSnapshot
    runs the accessors in the order Serial, Version, Model, Nics, Disks,
    BiosVersion, CPU, Memory, Status, Name, TempC, PowerKw, PowerState,
    License, then Slot and ChassisSerial for a blade, each on the state
    the previous one left; the first accessor to return an error ends the
    run, only the accessors up to it have been called, and ServerSnapshot
    returns nil and that error, in the state that accessor left.  When
    none fails it returns a snapshot of the probed shape and no error. *)
Theorem ServerSnapshot_fail_fast s w isBlade probeErr w1 bmcType w2 :
  IsBlade s w = (Done (isBlade, probeErr), w1) ->
  HardwareType s w1 = (Done bmcType, w2) ->
  map fst (accessorOrder isBlade s)
  = (["Serial"; "Version"; "Model"; "Nics"; "Disks"; "BiosVersion"; "CPU";
      "Memory"; "Status"; "Name"; "TempC"; "PowerKw"; "PowerState"; "License"]
     ++ (if isBlade then ["Slot"; "ChassisSerial"] else []))%list
  /\ (forall called e w3,
        runInOrder (accessorOrder isBlade s) [] w2 = Aborted called e w3 ->
        ServerSnapshot s w = (Done (None, Some e), w3)
        /\ exists k,
            (1 <= k <= List.length (accessorOrder isBlade s))%nat
            /\ rev called = firstn k (map fst (accessorOrder isBlade s)))
  /\ (forall w3,
        runInOrder (accessorOrder isBlade s) [] w2 = Completed w3 ->
        exists srv,
          ServerSnapshot s w = (Done (Some srv, None), w3)
          /\ isBladeSnapshot srv = isBlade).
Proof.
  intros Hp Hh.
  assert (agrees (runInOrder (accessorOrder isBlade s) [] w2)
            (ServerSnapshot s w) isBlade) as Hrun.
  { unfold ServerSnapshot. rewrite (bind_done _ _ _ _ _ Hp).
    destruct isBlade; cbn [accessorOrder].
    - exact (bladeSnapshot_runs s w1 bmcType w2 Hh).
    - exact (discreteSnapshot_runs s w1 bmcType w2 Hh). }
  split; [now destruct isBlade|]. split.
  - intros called e w3 Hr. split.
    + rewrite Hr in Hrun. exact Hrun.
    + destruct (runInOrder_called _ _ _ _ _ _ Hr) as (k & Hk & ->).
      exists k. split; [exact Hk|].
      now rewrite app_nil_r, rev_involutive.
  - intros w3 Hr. rewrite Hr in Hrun. exact Hrun.
Qed.

(** C7.  When the IsBlade probe returns an error, ServerSnapshot drops it
    and goes on as for a device that is not a blade: the result is that
    of the Discrete branch run on the state the probe left, and a snapshot
    it returns is a Discrete one. *)
Theorem ServerSnapshot_probe_error s w isBlade e w1 :
  IsBlade s w = (Done (isBlade, Some e), w1) ->
  isBlade = false
  /\ ServerSnapshot s w = discreteSnapshot s w1
  /\ (forall srv err w', ServerSnapshot s w = (Done (Some srv, err), w') ->
        isBladeSnapshot srv = false /\ err = None).
Proof.
  intros Hp.
  assert (isBlade = false) as ->.
  { destruct (IsBlade_returns s w) as (b & err & w' & Hb & Hfalse).
    rewrite Hp in Hb. injection Hb as <- <- <-. now apply Hfalse. }
  assert (ServerSnapshot s w = discreteSnapshot s w1) as Hs.
  { unfold ServerSnapshot. now rewrite (bind_done _ _ _ _ _ Hp). }
  split; [reflexivity|]. split; [exact Hs|].
  intros srv err w' Hret. rewrite Hs in Hret.
  destruct (HardwareType_returns s w1) as (bmcType & w2 & Hh).
  pose proof (discreteSnapshot_runs s w1 bmcType w2 Hh) as Hrun.
  rewrite Hret in Hrun.
  destruct (runInOrder (discreteOrder s) [] w2); cbn in Hrun;
    [|discriminate|discriminate].
  destruct Hrun as (srv' & [= <- <-] & Hshape). split; [exact Hshape|reflexivity].
Qed.

End Provider.
(** ** wrapXML *)

Section Envelope.
Import c7000.
Context {A : Type}.


End Envelope.

(** ** The properties on the scripted target *)

Section Runs.
Import Fixture.

(** A board serial "XYZ" is reported as "xyz". *)
Lemma Serial_board_or_invalid_witness :
  @query _ blade target "FRU_INFO.XML=(0,0)" boot
  = (Done (Some (withFru "XYZ" "X10DRT"), None), bmcAt 1 ["FRU_INFO.XML=(0,0)"])
  /\ @Serial _ blade target boot
     = (Done ("xyz", None), bmcAt 1 ["FRU_INFO.XML=(0,0)"]).
Proof.
  split; [reflexivity|].
  apply (proj1 (Serial_board_or_invalid (P := blade) target boot
                  (withFru "XYZ" "X10DRT") (bmcAt 1 ["FRU_INFO.XML=(0,0)"])
                  eq_refl)
           {| FruInfo_Board := Some {| Board_SerialNum := "XYZ";
                                        Board_PartNum := "X10DRT" |} |}
           {| Board_SerialNum := "XYZ"; Board_PartNum := "X10DRT" |});
    reflexivity.
Defined.

(** A power status "ON" is reported as "on". *)
Lemma PowerState_lower_or_unknow_witness :
  @PowerState _ blade target boot
  = (Done ("on", None), bmcAt 1 ["POWER_INFO.XML=(0,0)"]).
Proof.
  apply (proj1 (PowerState_lower_or_unknow (P := blade) target boot
                  (withPower "ON") (bmcAt 1 ["POWER_INFO.XML=(0,0)"]) eq_refl)
           {| PowerInfo_Power := {| Power_Status := "ON" |} |});
    reflexivity.
Defined.

(** The probe on a target with two named nodes. *)
Lemma IsBlade_iff_some_serial_witness :
  exists isBlade,
    @IsBlade _ blade target boot
    = (Done (isBlade, None), bmcAt 1 ["Get_NodeInfoReadings.XML=(0,0)"])
    /\ (isBlade = true <->
        exists ni node,
          IPMI_NodeInfo (withNodes twoNodes) = Some ni
          /\ In node (NodeInfo_Nodes ni) /\ Node_NodeSerial node <> "")
    /\ (IPMI_NodeInfo (withNodes twoNodes) = None -> isBlade = false).
Proof.
  apply (IsBlade_iff_some_serial (P := blade) target boot (withNodes twoNodes)
           (bmcAt 1 ["Get_NodeInfoReadings.XML=(0,0)"])).
  reflexivity.
Defined.

(** Two modules of 8192 MB make 16 GiB. *)
Lemma Memory_sum_div_1024_witness :
  @Memory _ blade target boot = (Done (16, None), bmcAt 1 ["SMBIOS_INFO.XML=(0,0)"]).
Proof.
  apply (proj2 (proj2 (Memory_sum_div_1024 (P := blade) target boot
                         (withSmbios [xeon "8"] ["8192 MB"; "8192 MB"])
                         (bmcAt 1 ["SMBIOS_INFO.XML=(0,0)"]) [8192; 8192] eq_refl
                         ltac:(repeat constructor)))).
  reflexivity.
Defined.

(** With the login refused Memory panics where BiosVersion returns the
    login error. *)
Lemma Memory_panics_on_failed_query_witness :
  @query _ locked target "SMBIOS_INFO.XML=(0,0)" boot
  = (Done (None, Some ErrLoginFailed), bmcAt 1 [])
  /\ @Memory _ locked target boot = (Panic nilDeref, bmcAt 1 [])
  /\ @BiosVersion _ locked target boot = (Done ("", Some ErrLoginFailed), bmcAt 1 []).
Proof.
  split; [reflexivity|].
  apply (Memory_panics_on_failed_query (P := locked) target boot
           ErrLoginFailed (bmcAt 1 [])).
  reflexivity.
Defined.

(** Nodes ABC/500 and XYZ/900 with own serial "xyz": 0.9 kW. *)
Lemma PowerKw_own_node_watts_witness :
  @PowerKw _ blade target boot
  = (Done (Go.float64_0_9, None),
     bmcAt 2 ["Get_NodeInfoReadings.XML=(0,0)"; "FRU_INFO.XML=(0,0)"]).
Proof.
  apply (proj2 (PowerKw_own_node_watts (P := blade) target boot
                  (withNodes twoNodes)
                  (bmcAt 1 ["Get_NodeInfoReadings.XML=(0,0)"])
                  {| NodeInfo_Nodes := twoNodes |} "xyz"
                  (bmcAt 2 ["Get_NodeInfoReadings.XML=(0,0)"; "FRU_INFO.XML=(0,0)"])
                  eq_refl eq_refl eq_refl)
           (node 0 "ABC" "500" "31") (node 1 "XYZ" "900" "33"));
    reflexivity.
Defined.

(** The chassis page on a firmware without it, and on one with it. *)
Lemma get_page_not_found_witness :
  @get _ noRedfish target "redfish/v1/Chassis/1" true boot
  = (Done (None, Some ErrPageNotFound), bmcAt 1 [chassisURL])
  /\ @get _ blade target "redfish/v1/Chassis/1" true boot
     = (Done (Some chassisURL, None), bmcAt 1 [chassisURL]).
Proof.
  split.
  - apply (proj1 (proj1 (get_page_not_found (P := noRedfish) target
                           "redfish/v1/Chassis/1" true boot (bmcAt 1 [])
                           (bmcAt 1 [chassisURL]) chassisRequest (inl (page 404))
                           eq_refl eq_refl eq_refl eq_refl)
                    (page 404) eq_refl eq_refl)).
    reflexivity.
  - apply (proj2 (proj1 (get_page_not_found (P := blade) target
                           "redfish/v1/Chassis/1" true boot (bmcAt 1 [])
                           (bmcAt 1 [chassisURL]) chassisRequest (inl (page 200))
                           eq_refl eq_refl eq_refl eq_refl)
                    (page 200) eq_refl eq_refl)).
    discriminate.
Defined.

(** A core count that is not a number makes CPU, the seventh call, fail:
    the aggregation stops there with its error. *)
Lemma ServerSnapshot_fail_fast_witness :
  @runInOrder _ (@accessorOrder _ badCores true target) []
    (bmcAt 2 ["Get_NodeInfoReadings.XML=(0,0)"; "FRU_INFO.XML=(0,0)"])
  = Aborted
      ["CPU"; "BiosVersion"; "Disks"; "Nics"; "Model"; "Version"; "Serial"]
      (NumError "Atoi" "x" Go.ErrSyntax)
      (bmcAt 9 ["Get_NodeInfoReadings.XML=(0,0)"; "FRU_INFO.XML=(0,0)";
              "FRU_INFO.XML=(0,0)"; "GENERIC_INFO.XML=(0,0)";
              "FRU_INFO.XML=(0,0)"; "GENERIC_INFO.XML=(0,0)";
              "Get_PlatformInfo.XML=(0,0)"; "SMBIOS_INFO.XML=(0,0)";
              "SMBIOS_INFO.XML=(0,0)"])
  /\ @ServerSnapshot _ badCores target boot
     = (Done (None, Some (NumError "Atoi" "x" Go.ErrSyntax)),
        bmcAt 9 ["Get_NodeInfoReadings.XML=(0,0)"; "FRU_INFO.XML=(0,0)";
               "FRU_INFO.XML=(0,0)"; "GENERIC_INFO.XML=(0,0)";
               "FRU_INFO.XML=(0,0)"; "GENERIC_INFO.XML=(0,0)";
               "Get_PlatformInfo.XML=(0,0)"; "SMBIOS_INFO.XML=(0,0)";
               "SMBIOS_INFO.XML=(0,0)"]).
Proof.
  split; [vm_compute; reflexivity|].
  apply (proj1 (proj2 (ServerSnapshot_fail_fast (P := badCores) target boot
                         true None
                         (bmcAt 1 ["Get_NodeInfoReadings.XML=(0,0)"]) "X10DRT"
                         (bmcAt 2 ["Get_NodeInfoReadings.XML=(0,0)";
                                 "FRU_INFO.XML=(0,0)"])
                         eq_refl eq_refl))
           ["CPU"; "BiosVersion"; "Disks"; "Nics"; "Model"; "Version"; "Serial"]).
  vm_compute; reflexivity.
Defined.

(** With only the first login refused the probe fails and a Discrete
    snapshot comes back. *)
Lemma ServerSnapshot_probe_error_witness :
  @IsBlade _ slowStart target boot = (Done (false, Some ErrLoginFailed), bmcAt 1 [])
  /\ @ServerSnapshot _ slowStart target boot
     = @discreteSnapshot _ slowStart target (bmcAt 1 [])
  /\ exists discrete w',
       @ServerSnapshot _ slowStart target boot
       = (Done (Some (DiscreteSnapshot discrete), None), w').
Proof.
  split; [reflexivity|]. split.
  - apply (ServerSnapshot_probe_error (P := slowStart) target boot false
             ErrLoginFailed (bmcAt 1 [])).
    reflexivity.
  - do 2 eexists. vm_compute. reflexivity.
Defined.



End Runs.

End Props.

(** * Further properties of the two files *)

Module Extra.
Import http supermicro devices supermicrox Props.
Local Open Scope go_scope.

Section Provider.
Context {World : Type} {P : Platform World}.

(** ** No accessor but Memory can panic *)

(** Run the query an accessor opens with, and split on what it returned:
    an error, or a document. *)
Ltac open_query s key w :=
  let ipmi := fresh "ipmi" in
  let err := fresh "err" in
  let w' := fresh "w'" in
  let Hq := fresh "Hq" in
  let Hdoc := fresh "Hdoc" in
  destruct (query_returns s key w) as (ipmi & err & w' & Hq & Hdoc);
  rewrite (bind_done _ _ _ _ _ Hq);
  destruct err as [?|];
  [ | destruct ipmi as [ipmi|]; [ | now destruct Hdoc ] ];
  cbv beta iota zeta delta [bind deref ret].

Ltac returns := do 3 eexists; split; [reflexivity | congruence].

Lemma Serial_returns s w : exists r w', Serial s w = (Done r, w').
Proof.
  unfold Serial. open_query s "FRU_INFO.XML=(0,0)" w; [now eauto|].
  destruct (IPMI_FruInfo ipmi) as [fru|]; [destruct (FruInfo_Board fru)|]; eauto.
Qed.

Lemma Model_returns s w : exists r w', Model s w = (Done r, w').
Proof.
  unfold Model. open_query s "FRU_INFO.XML=(0,0)" w; [now eauto|].
  destruct (IPMI_FruInfo ipmi) as [fru|]; [destruct (FruInfo_Board fru)|]; eauto.
Qed.

Lemma Version_returns s w : exists r w', Version s w = (Done r, w').
Proof.
  unfold Version. open_query s "GENERIC_INFO.XML=(0,0)" w; [now eauto|].
  destruct (IPMI_GenericInfo ipmi) as [gi|]; [|now eauto].
  destruct (negb _); [now eauto|].
  destruct (GenericInfo_Generic gi); eauto.
Qed.

Lemma Name_returns s w : exists r w', Name s w = (Done r, w').
Proof.
  unfold Name. open_query s "CONFIG_INFO.XML=(0,0)" w; [now eauto|].
  destruct (IPMI_ConfigInfo ipmi) as [ci|]; [destruct (ConfigInfo_Hostname ci)|];
    eauto.
Qed.

Lemma Status_returns s w : exists r w', Status s w = (Done r, w').
Proof.
  unfold Status. open_query s "SENSOR_INFO_FOR_SYS_HEALTH.XML=(1,ff)" w;
    [now eauto|].
  destruct (IPMI_HealthInfo ipmi) as [hi|]; [destruct (String.eqb _ _)|]; eauto.
Qed.

Lemma CPU_returns s w : exists r w', CPU s w = (Done r, w').
Proof.
  unfold CPU. open_query s "SMBIOS_INFO.XML=(0,0)" w; [now eauto|].
  destruct (IPMI_CPU ipmi) as [|entry rest]; [now eauto|].
  destruct (Go.Atoi (CPU_Core entry)) as [cores [ne|]]; eauto.
Qed.

Lemma BiosVersion_returns s w : exists r w', BiosVersion s w = (Done r, w').
Proof.
  unfold BiosVersion. open_query s "SMBIOS_INFO.XML=(0,0)" w; [now eauto|].
  destruct (IPMI_Bios ipmi); eauto.
Qed.

Lemma PowerState_returns s w : exists r w', PowerState s w = (Done r, w').
Proof.
  unfold PowerState. open_query s "POWER_INFO.XML=(0,0)" w; [now eauto|].
  destruct (IPMI_PowerInfo ipmi); eauto.
Qed.

Lemma License_returns s w : exists r w', License s w = (Done r, w').
Proof.
  unfold License. open_query s "BIOS_LINCENSE_ACTIVATE.XML=(0,0)" w; [now eauto|].
  destruct (IPMI_BiosLicense ipmi) as [lic|]; [|now eauto].
  repeat (destruct (String.eqb _ _); [now eauto|]). eauto.
Qed.

Lemma PowerKw_returns s w : exists r w', PowerKw s w = (Done r, w').
Proof.
  unfold PowerKw. open_query s "Get_NodeInfoReadings.XML=(0,0)" w; [now eauto|].
  destruct (IPMI_NodeInfo ipmi) as [ni|]; [|now eauto].
  destruct (Serial_returns s w') as ([serial [e|]] & w2 & Hs);
    rewrite Hs; [now eauto|].
  destruct (ownNode serial (NodeInfo_Nodes ni)) as [node|]; [|now eauto].
  destruct (Go.Atoi (Node_Power node)) as [value [ne|]]; eauto.
Qed.

Lemma TempC_returns s w : exists r w', TempC s w = (Done r, w').
Proof.
  unfold TempC. open_query s "Get_NodeInfoReadings.XML=(0,0)" w; [now eauto|].
  destruct (IPMI_NodeInfo ipmi) as [ni|]; [|now eauto].
  destruct (Serial_returns s w') as ([serial [e|]] & w2 & Hs);
    rewrite Hs; [now eauto|].
  destruct (ownNode serial (NodeInfo_Nodes ni)) as [node|]; [|now eauto].
  destruct (Go.Atoi (Node_SystemTemp node)) as [value [ne|]]; eauto.
Qed.

Lemma Slot_returns s w : exists r w', Slot s w = (Done r, w').
Proof.
  unfold Slot. cbv zeta.
  open_query s "Get_NodeInfoReadings.XML=(0,0)" w; [now eauto|].
  destruct (IPMI_NodeInfo ipmi) as [ni|]; [|now eauto].
  destruct (Serial_returns s w') as ([serial [e|]] & w2 & Hs);
    rewrite Hs; eauto.
Qed.

Lemma Nics_returns s w : exists r w', Nics s w = (Done r, w').
Proof.
  unfold Nics.
  destruct (query_returns s "GENERIC_INFO.XML=(0,0)" w)
    as (ipmi & err & w1 & Hq & _).
  rewrite (bind_done _ _ _ _ _ Hq).
  destruct err as [e|]; cbv beta iota zeta delta [ret]; [now eauto|].
  open_query s "Get_PlatformInfo.XML=(0,0)" w1; [now eauto|].
  destruct (IPMI_PlatformInfo ipmi0); eauto.
Qed.

(** get never panics, and hands back a payload whenever it reports no
    error. *)
Lemma get_returns s endpoint authentication w :
  exists payload err w',
    get s endpoint authentication w = (Done (payload, err), w')
    /\ (err = None -> payload <> None).
Proof.
  unfold get, bind, login, Cookies, Do, ret.
  destruct (httpLogin s w) as [[e|] w1]; [returns|].
  destruct (NewRequest _ _ _) as [req|e]; [|returns].
  destruct (url_Parse _) as [msg|]; [returns|].
  destruct (httpClient_Do _ w1) as [[resp|msg] w2]; [|returns].
  destruct (ReadAll resp) as [payload [e|]]; [returns|].
  destruct (Response_StatusCode resp =? 404); returns.
Qed.

Lemma ChassisSerial_returns s w : exists r w', ChassisSerial s w = (Done r, w').
Proof.
  unfold ChassisSerial.
  destruct (get_returns s "redfish/v1/Chassis/1" true w)
    as (payload & err & w' & Hg & Hdoc).
  rewrite (bind_done _ _ _ _ _ Hg).
  destruct err as [e|]; cbv beta iota zeta delta [ret]; [now eauto|].
  destruct payload as [payload|]; [|now destruct Hdoc].
  cbv beta iota zeta delta [bind deref ret].
  destruct (json_Unmarshal payload) as [chassisInfo [msg|]]; [now eauto|].
  destruct (negb _); eauto.
Qed.

Lemma Disks_returns s (w : World) : exists r w', Disks s w = (Done r, w').
Proof. unfold Disks, ret. eauto. Qed.

(** X1.  Whatever the target and the Go library do, none of Serial,
    Model, Version, Name, Status, CPU, BiosVersion, PowerKw, PowerState,
    TempC, IsBlade, Slot, Nics, License, ChassisSerial, Disks and
    HardwareType panics: each returns to its caller. *)
Theorem accessors_never_panic s w :
  (exists r w', Serial s w = (Done r, w'))
  /\ (exists r w', Model s w = (Done r, w'))
  /\ (exists r w', Version s w = (Done r, w'))
  /\ (exists r w', Name s w = (Done r, w'))
  /\ (exists r w', Status s w = (Done r, w'))
  /\ (exists r w', CPU s w = (Done r, w'))
  /\ (exists r w', BiosVersion s w = (Done r, w'))
  /\ (exists r w', PowerKw s w = (Done r, w'))
  /\ (exists r w', PowerState s w = (Done r, w'))
  /\ (exists r w', TempC s w = (Done r, w'))
  /\ (exists r w', IsBlade s w = (Done r, w'))
  /\ (exists r w', Slot s w = (Done r, w'))
  /\ (exists r w', Nics s w = (Done r, w'))
  /\ (exists r w', License s w = (Done r, w'))
  /\ (exists r w', ChassisSerial s w = (Done r, w'))
  /\ (exists r w', Disks s w = (Done r, w'))
  /\ (exists r w', HardwareType s w = (Done r, w')).
Proof.
  repeat split;
    first [ apply Serial_returns | apply Model_returns | apply Version_returns
          | apply Name_returns | apply Status_returns | apply CPU_returns
          | apply BiosVersion_returns | apply PowerKw_returns
          | apply PowerState_returns | apply TempC_returns | apply Slot_returns
          | apply Nics_returns | apply License_returns
          | apply ChassisSerial_returns | apply Disks_returns
          | apply HardwareType_returns | idtac ].
  destruct (IsBlade_returns s w) as (b & err & w' & Hb & _). eauto.
Qed.

(** ** Crashes of the aggregation *)

(** A panic of Memory is the nil dereference. *)
Lemma Memory_panic_is_nil s w msg w' :
  Memory s w = (Panic msg, w') -> msg = nilDeref.
Proof.
  destruct (query_returns s "SMBIOS_INFO.XML=(0,0)" w)
    as (ipmi & err & w1 & Hq & _).
  unfold Memory. rewrite (bind_done _ _ _ _ _ Hq).
  cbv beta iota zeta delta [bind deref ret panic].
  destruct ipmi as [ipmi|].
  - destruct (Memory_loop _ _); discriminate.
  - now intros [= <- _].
Qed.

(** A step that returns cannot be where a run crashed. *)
Lemma run_past {A} (m : M World (A * option error)) name rest called w
  called' msg w3 :
  (exists r w', m w = (Done r, w')) ->
  runInOrder ((name, errorOf m) :: rest) called w = Crashed called' msg w3 ->
  exists w', runInOrder rest (name :: called) w' = Crashed called' msg w3.
Proof.
  intros ([v err] & w' & Hm). cbn [runInOrder].
  unfold errorOf, bind, ret. rewrite Hm.
  destruct err as [e|]; [discriminate|]. eauto.
Qed.

Ltac run_past_one Hr :=
  apply run_past in Hr;
  [ destruct Hr as (? & Hr)
  | first [ apply Serial_returns | apply Model_returns | apply Version_returns
          | apply Name_returns | apply Status_returns | apply CPU_returns
          | apply BiosVersion_returns | apply PowerKw_returns
          | apply PowerState_returns | apply TempC_returns | apply Slot_returns
          | apply Nics_returns | apply License_returns
          | apply ChassisSerial_returns | apply Disks_returns ] ].

(** X2.  An aggregation can crash at one place only.  When the ordered
    run of the accessors crashes, it does so in Memory, the eighth call,
    on the nil dereference, and ServerSnapshot panics with it instead of
    returning an error. *)
Theorem ServerSnapshot_crashes_only_in_Memory s w isBlade probeErr w1 bmcType w2
  called msg w3 :
  IsBlade s w = (Done (isBlade, probeErr), w1) ->
  HardwareType s w1 = (Done bmcType, w2) ->
  runInOrder (accessorOrder isBlade s) [] w2 = Crashed called msg w3 ->
  ServerSnapshot s w = (Panic msg, w3)
  /\ msg = nilDeref
  /\ called = ["Memory"; "CPU"; "BiosVersion"; "Disks"; "Nics"; "Model";
               "Version"; "Serial"].
Proof.
  intros Hp Hh Hr. split.
  - assert (agrees (runInOrder (accessorOrder isBlade s) [] w2)
              (ServerSnapshot s w) isBlade) as Hrun.
    { unfold ServerSnapshot. rewrite (bind_done _ _ _ _ _ Hp).
      destruct isBlade; cbn [accessorOrder].
      - exact (bladeSnapshot_runs s w1 bmcType w2 Hh).
      - exact (discreteSnapshot_runs s w1 bmcType w2 Hh). }
    rewrite Hr in Hrun. exact Hrun.
  - assert (exists rest w7,
               runInOrder (("Memory", errorOf (Memory s)) :: rest)
                 ["CPU"; "BiosVersion"; "Disks"; "Nics"; "Model"; "Version";
                  "Serial"] w7 = Crashed called msg w3
               /\ forall called0 w8,
                   runInOrder rest called0 w8 <> Crashed called msg w3)
      as (rest & w7 & Hmem & Hrest).
    { destruct isBlade; cbn [accessorOrder bladeOrder discreteOrder app] in Hr;
        do 7 run_past_one Hr; do 2 eexists; (split; [exact Hr|]);
        intros called0 w8 Hr'; repeat run_past_one Hr'; discriminate. }
    cbn [runInOrder] in Hmem. unfold errorOf, bind, ret in Hmem.
    destruct (Memory s w7) as [[[v [e|]]|msg'] w8] eqn:Em.
    + discriminate.
    + now apply Hrest in Hmem.
    + injection Hmem as <- <- <-. split; [|reflexivity].
      exact (Memory_panic_is_nil _ _ _ _ Em).
Qed.

(** X3.  ServerSnapshot never returns both a snapshot and an error, nor
    neither: what it returns is a snapshot with a nil error or nil with an
    error, and a snapshot has the shape the probe found. *)
Theorem ServerSnapshot_snapshot_xor_error s w srv err w' :
  ServerSnapshot s w = (Done (srv, err), w') ->
  (exists snap, srv = Some snap /\ err = None
                /\ forall isBlade probeErr w1,
                     IsBlade s w = (Done (isBlade, probeErr), w1) ->
                     isBladeSnapshot snap = isBlade)
  \/ (exists e, srv = None /\ err = Some e).
Proof.
  intros Hs.
  destruct (IsBlade_returns s w) as (b & perr & w1 & Hp & _).
  destruct (HardwareType_returns s w1) as (bmcType & w2 & Hh).
  assert (agrees (runInOrder (accessorOrder b s) [] w2)
            (ServerSnapshot s w) b) as Hrun.
  { unfold ServerSnapshot. rewrite (bind_done _ _ _ _ _ Hp).
    destruct b; cbn [accessorOrder].
    - exact (bladeSnapshot_runs s w1 bmcType w2 Hh).
    - exact (discreteSnapshot_runs s w1 bmcType w2 Hh). }
  rewrite Hs in Hrun.
  destruct (runInOrder (accessorOrder b s) [] w2); cbn in Hrun.
  - destruct Hrun as (snap & [= -> -> ->] & Hshape). left.
    exists snap. repeat split; trivial.
    intros isBlade probeErr w1' Hp'. rewrite Hp in Hp'. now injection Hp' as <- _ _.
  - injection Hrun as -> -> ->. right. eauto.
  - discriminate.
Qed.

(** ** A refused login *)

(** X4.  On a target that refuses the login, ServerSnapshot makes three
    login attempts, for the probe, for the hardware type and for Serial,
    whose errors the first two drop, and returns nil with the error of the
    third; it neither panics nor returns a snapshot. *)
Theorem ServerSnapshot_login_refused s w e1 w1 e2 w2 e3 w3 :
  httpLogin s w = (Some e1, w1) ->
  httpLogin s w1 = (Some e2, w2) ->
  httpLogin s w2 = (Some e3, w3) ->
  ServerSnapshot s w = (Done (None, Some e3), w3).
Proof.
  intros H1 H2 H3.
  pose proof (query_login_failed s "Get_NodeInfoReadings.XML=(0,0)" _ _ _ H1) as Q1.
  pose proof (query_login_failed s "FRU_INFO.XML=(0,0)" _ _ _ H2) as Q2.
  pose proof (query_login_failed s "FRU_INFO.XML=(0,0)" _ _ _ H3) as Q3.
  cbv beta iota zeta delta [ServerSnapshot IsBlade discreteSnapshot HardwareType
                             Model Serial orReturn bind ret].
  rewrite Q1. cbv beta iota. rewrite Q2. cbv beta iota. rewrite Q3.
  reflexivity.
Qed.

(** X5.  When the login is refused, every guarded accessor hands the
    login error up unchanged, with the zero value of its result (1 for
    Slot, whose default is set before the query), and nothing is sent:
    the state is the one the login left. *)
Theorem accessors_hand_up_login_error s w e w' :
  httpLogin s w = (Some e, w') ->
  Serial s w = (Done ("", Some e), w')
  /\ Model s w = (Done ("", Some e), w')
  /\ Version s w = (Done ("", Some e), w')
  /\ Name s w = (Done ("", Some e), w')
  /\ Status s w = (Done ("", Some e), w')
  /\ CPU s w = (Done ("", 0, 0, 0, Some e), w')
  /\ BiosVersion s w = (Done ("", Some e), w')
  /\ PowerKw s w = (Done (Go.float64_zero, Some e), w')
  /\ PowerState s w = (Done ("", Some e), w')
  /\ TempC s w = (Done (0, Some e), w')
  /\ IsBlade s w = (Done (false, Some e), w')
  /\ Slot s w = (Done (1, Some e), w')
  /\ Nics s w = (Done ([], Some e), w')
  /\ License s w = (Done ("", "", Some e), w')
  /\ ChassisSerial s w = (Done ("", Some e), w')
  /\ get s "redfish/v1/Chassis/1" true w = (Done (None, Some e), w')
  /\ HardwareType s w = (Done "", w').
Proof.
  intros Hl.
  assert (forall key, query s key w = (Done (None, Some e), w')) as Hq
      by (intros key; now apply query_login_failed).
  assert (get s "redfish/v1/Chassis/1" true w = (Done (None, Some e), w')) as Hg
      by (unfold get, bind, login; now rewrite Hl).
  unfold Serial, Model, Version, Name, Status, CPU, BiosVersion, PowerKw,
    PowerState, TempC, IsBlade, Slot, Nics, License, ChassisSerial,
    HardwareType, Model.
  cbv beta iota zeta delta [bind ret].
  rewrite !Hq, Hg. repeat split.
Qed.

(** ** Memory off the straight path *)

Lemma Memory_loop_stops pre sizes bad post v ne :
  Forall2 (fun dimm size =>
             Go.Atoi (Go.TrimSuffix (Dimm_Size dimm) " MB") = (size, None))
    pre sizes ->
  Go.Atoi (Go.TrimSuffix (Dimm_Size bad) " MB") = (v, Some ne) ->
  forall mem,
    Memory_loop (pre ++ bad :: post) mem
    = inl (fold_left Go.int_add sizes mem,
           Some (NumError "Atoi" (Go.TrimSuffix (Dimm_Size bad) " MB") ne)).
Proof.
  intros Hpre Hbad.
  induction Hpre as [|dimm size pre sizes Hd _ IH]; intros mem; cbn.
  - now rewrite Hbad.
  - rewrite Hd. apply IH.
Qed.

(** X6.  When a module's size, with its " MB" suffix stripped, is not an
    integer, Memory stops at that module: it returns Atoi's error for the
    stripped text together with the sum of the modules before it, still
    in megabytes (not divided by 1024); the modules after it are not
    read, and an error of the query itself is overridden. *)
Theorem Memory_stops_at_unparsable_size s w ipmi err w' pre sizes bad post v ne :
  query s "SMBIOS_INFO.XML=(0,0)" w = (Done (Some ipmi, err), w') ->
  IPMI_Dimm ipmi = (pre ++ bad :: post)%list ->
  Forall2 (fun dimm size =>
             Go.Atoi (Go.TrimSuffix (Dimm_Size dimm) " MB") = (size, None))
    pre sizes ->
  Go.Atoi (Go.TrimSuffix (Dimm_Size bad) " MB") = (v, Some ne) ->
  Memory s w
  = (Done (Go.wrap64 (Go.total sizes),
           Some (NumError "Atoi" (Go.TrimSuffix (Dimm_Size bad) " MB") ne)), w').
Proof.
  intros Hq Hdimms Hpre Hbad.
  unfold Memory. rewrite (bind_done _ _ _ _ _ Hq).
  cbv beta iota zeta delta [bind deref ret].
  rewrite Hdimms, (Memory_loop_stops _ _ _ _ _ _ Hpre Hbad).
  rewrite fold_int_add by (unfold Go.minInt, Go.maxInt; lia).
  reflexivity.
Qed.

(** X7.  When the SMBIOS answer fails to decode, query hands back the
    partly filled document with the decoder's error, and Memory returns
    both a value and the error: the modules that were decoded, summed and
    divided by 1024, next to the error of the query. *)
Theorem Memory_value_with_query_error s w ipmi e w' sizes :
  query s "SMBIOS_INFO.XML=(0,0)" w = (Done (Some ipmi, Some e), w') ->
  Forall2 (fun dimm size =>
             Go.Atoi (Go.TrimSuffix (Dimm_Size dimm) " MB") = (size, None))
    (IPMI_Dimm ipmi) sizes ->
  Memory s w = (Done (Z.quot (Go.wrap64 (Go.total sizes)) 1024, Some e), w').
Proof.
  intros Hq Hsizes.
  unfold Memory. rewrite (bind_done _ _ _ _ _ Hq).
  cbv beta iota zeta delta [bind deref ret].
  rewrite (Memory_loop_sums _ _ Hsizes).
  rewrite fold_int_add by (unfold Go.minInt, Go.maxInt; lia).
  reflexivity.
Qed.

(** ** The per-node readings: PowerKw, TempC, Slot *)

Lemma ownNode_none serial nodes :
  Forall (fun n => ToLower (Node_NodeSerial n) <> serial) nodes ->
  ownNode serial nodes = None.
Proof.
  unfold ownNode. induction 1 as [|n nodes Hn _ IH]; cbn; [reflexivity|].
  destruct (String.eqb_spec (ToLower (Node_NodeSerial n)) serial);
    [contradiction | exact IH].
Qed.

Lemma slot_unmatched serial nodes :
  Forall (fun n => ToLower (Node_NodeSerial n) <> serial) nodes ->
  forall slot,
    fold_left
      (fun slot node =>
         if String.eqb (ToLower (Node_NodeSerial node)) serial
         then Go.int_add (Node_ID node) 1 else slot)
      nodes slot = slot.
Proof.
  induction 1 as [|n nodes Hn _ IH]; intros slot; cbn; [reflexivity|].
  destruct (String.eqb_spec (ToLower (Node_NodeSerial n)) serial);
    [contradiction | apply IH].
Qed.

(** X8.  On a target whose answer has no node-info sub-document, PowerKw
    and TempC return zero with no error and Slot returns its default 1
    with ErrUnableToReadData; none of them asks for the serial: the state
    is the one the node-info query left. *)
Theorem node_readings_without_node_info s w ipmi w1 :
  query s "Get_NodeInfoReadings.XML=(0,0)" w = (Done (Some ipmi, None), w1) ->
  IPMI_NodeInfo ipmi = None ->
  PowerKw s w = (Done (Go.float64_zero, None), w1)
  /\ TempC s w = (Done (0, None), w1)
  /\ Slot s w = (Done (1, Some ErrUnableToReadData), w1).
Proof.
  intros Hq Hni. unfold PowerKw, TempC, Slot.
  cbv beta iota zeta delta [bind deref ret]. rewrite Hq, Hni.
  repeat split.
Qed.

(** X9.  When no node of the node-info document carries the device's own
    serial, PowerKw and TempC return zero and Slot returns 1, all without
    an error: a device that is not listed is not told apart from one that
    draws no power in slot 1. *)
Theorem node_readings_without_own_node s w ipmi w1 ni serial w2 :
  query s "Get_NodeInfoReadings.XML=(0,0)" w = (Done (Some ipmi, None), w1) ->
  IPMI_NodeInfo ipmi = Some ni ->
  Serial s w1 = (Done (serial, None), w2) ->
  Forall (fun n => ToLower (Node_NodeSerial n) <> serial) (NodeInfo_Nodes ni) ->
  PowerKw s w = (Done (Go.float64_zero, None), w2)
  /\ TempC s w = (Done (0, None), w2)
  /\ Slot s w = (Done (1, None), w2).
Proof.
  intros Hq Hni Hs Hnone. unfold PowerKw, TempC, Slot.
  cbv beta iota zeta delta [bind deref ret]. rewrite Hq, Hni, Hs.
  rewrite (ownNode_none _ _ Hnone), (slot_unmatched _ _ Hnone).
  repeat split.
Qed.

(** X10.  When the answer has a node-info sub-document and Serial then
    fails, PowerKw, TempC and Slot all return Serial's error, with zero,
    zero and 1 as values. *)
Theorem node_readings_hand_up_serial_error s w ipmi w1 ni serial e w2 :
  query s "Get_NodeInfoReadings.XML=(0,0)" w = (Done (Some ipmi, None), w1) ->
  IPMI_NodeInfo ipmi = Some ni ->
  Serial s w1 = (Done (serial, Some e), w2) ->
  PowerKw s w = (Done (Go.float64_zero, Some e), w2)
  /\ TempC s w = (Done (0, Some e), w2)
  /\ Slot s w = (Done (1, Some e), w2).
Proof.
  intros Hq Hni Hs. unfold PowerKw, TempC, Slot.
  cbv beta iota zeta delta [bind deref ret]. rewrite Hq, Hni, Hs.
  repeat split.
Qed.

(** X11.  TempC reads the first node whose lower-cased serial is the
    device's own and returns what Atoi makes of its temperature field:
    the integer with no error, or, when the field is not an integer, the
    error together with the value Atoi returns with it (0, or the nearest
    int for a number out of range). *)
Theorem TempC_own_node s w ipmi w1 ni serial w2 pre node post temp ne :
  query s "Get_NodeInfoReadings.XML=(0,0)" w = (Done (Some ipmi, None), w1) ->
  IPMI_NodeInfo ipmi = Some ni ->
  Serial s w1 = (Done (serial, None), w2) ->
  NodeInfo_Nodes ni = (pre ++ node :: post)%list ->
  Forall (fun n => ToLower (Node_NodeSerial n) <> serial) pre ->
  ToLower (Node_NodeSerial node) = serial ->
  Go.Atoi (Node_SystemTemp node) = (temp, ne) ->
  TempC s w
  = (Done (temp,
           match ne with
           | Some k => Some (NumError "Atoi" (Node_SystemTemp node) k)
           | None => None
           end), w2).
Proof.
  intros Hq Hni Hs Hnodes Hpre Hnode Ht. unfold TempC.
  cbv beta iota zeta delta [bind deref ret]. rewrite Hq, Hni, Hs, Hnodes.
  rewrite (ownNode_first _ _ _ _ Hpre Hnode), Ht.
  destruct ne; reflexivity.
Qed.

(** X12.  Slot has no break in its loop: of the nodes carrying the
    device's own serial the last one decides, and the slot is its ID plus
    one (PowerKw and TempC read the first one). *)
Theorem Slot_last_own_node s w ipmi w1 ni serial w2 pre node post :
  query s "Get_NodeInfoReadings.XML=(0,0)" w = (Done (Some ipmi, None), w1) ->
  IPMI_NodeInfo ipmi = Some ni ->
  Serial s w1 = (Done (serial, None), w2) ->
  NodeInfo_Nodes ni = (pre ++ node :: post)%list ->
  ToLower (Node_NodeSerial node) = serial ->
  Forall (fun n => ToLower (Node_NodeSerial n) <> serial) post ->
  Slot s w = (Done (Go.int_add (Node_ID node) 1, None), w2).
Proof.
  intros Hq Hni Hs Hnodes Hnode Hpost. unfold Slot.
  cbv beta iota zeta delta [bind deref ret]. rewrite Hq, Hni, Hs, Hnodes.
  rewrite fold_left_app. cbn [fold_left].
  rewrite (proj2 (String.eqb_eq _ _) Hnode).
  rewrite (slot_unmatched _ _ Hpost). reflexivity.
Qed.

(** ** Nics *)

(** X13.  Whatever Nics returns, with or without an error, the names of
    the interfaces are a selection, in this order, of bmc, eth0, eth1,
    eth2, eth3: at most five interfaces, no name twice, the BMC's first;
    and every host interface has a non-empty address. *)
Theorem Nics_names_in_order s w nics err w' :
  Nics s w = (Done (nics, err), w') ->
  (exists b0 b1 b2 b3 b4 : bool,
      map Nic_Name nics
      = ((if b0 then ["bmc"] else []) ++ (if b1 then ["eth0"] else [])
         ++ (if b2 then ["eth1"] else []) ++ (if b3 then ["eth2"] else [])
         ++ (if b4 then ["eth3"] else []))%list)
  /\ Forall (fun nic => Nic_Name nic <> "bmc" -> Nic_MacAddress nic <> "") nics.
Proof.
  unfold Nics.
  destruct (query_returns s "GENERIC_INFO.XML=(0,0)" w)
    as (ipmi & err1 & w1 & Hq1 & _).
  rewrite (bind_done _ _ _ _ _ Hq1).
  destruct err1 as [e1|]; cbv beta iota zeta delta [ret].
  { intros [= <- <- <-]. split; [now exists false, false, false, false, false|].
    constructor. }
  destruct (query_returns s "Get_PlatformInfo.XML=(0,0)" w1)
    as (ipmi2 & err2 & w2 & Hq2 & Hdoc2).
  rewrite (bind_done _ _ _ _ _ Hq2).
  assert (exists b0 mac,
             match ipmi with
             | Some ipmi =>
                 match IPMI_GenericInfo ipmi with
                 | Some gi =>
                     if negb (GenericInfo_BmcMac gi =? "")%string
                     then appendNic "bmc" (GenericInfo_BmcMac gi) []
                     else
                       match GenericInfo_Generic gi with
                       | Some g => appendNic "bmc" (Generic_BmcMac g) []
                       | None => []
                       end
                 | None => []
                 end
             | None => []
             end
             = if b0 : bool
               then [{| Nic_Name := "bmc"; Nic_MacAddress := mac |}] else [])
    as (b0 & mac & ->).
  { destruct ipmi as [ipmi|]; [|now exists false, ""].
    destruct (IPMI_GenericInfo ipmi) as [gi|]; [|now exists false, ""].
    destruct (negb _); [now exists true, (GenericInfo_BmcMac gi)|].
    destruct (GenericInfo_Generic gi) as [g|];
      [now exists true, (Generic_BmcMac g) | now exists false, ""]. }
  destruct err2 as [e2|]; cbv beta iota zeta delta [bind deref ret].
  { intros [= <- <- <-]. split.
    - exists b0, false, false, false, false. now destruct b0.
    - destruct b0; repeat constructor. cbn. congruence. }
  destruct ipmi2 as [ipmi2|]; [|now destruct Hdoc2].
  cbv beta iota zeta delta [bind deref ret].
  destruct (IPMI_PlatformInfo ipmi2) as [pi|].
  - unfold appendIfSet, appendNic.
    destruct (String.eqb_spec (PlatformInfo_MbMacAddr1 pi) "") as [E1|E1];
      destruct (String.eqb_spec (PlatformInfo_MbMacAddr2 pi) "") as [E2|E2];
      destruct (String.eqb_spec (PlatformInfo_MbMacAddr3 pi) "") as [E3|E3];
      destruct (String.eqb_spec (PlatformInfo_MbMacAddr4 pi) "") as [E4|E4];
      cbn [negb]; intros [= <- <- <-]; split;
      try (exists b0, (negb (PlatformInfo_MbMacAddr1 pi =? "")%string),
             (negb (PlatformInfo_MbMacAddr2 pi =? "")%string),
             (negb (PlatformInfo_MbMacAddr3 pi =? "")%string),
             (negb (PlatformInfo_MbMacAddr4 pi =? "")%string);
           rewrite ?(proj2 (String.eqb_eq _ _) E1),
             ?(proj2 (String.eqb_neq _ _) E1),
             ?(proj2 (String.eqb_eq _ _) E2),
             ?(proj2 (String.eqb_neq _ _) E2),
             ?(proj2 (String.eqb_eq _ _) E3),
             ?(proj2 (String.eqb_neq _ _) E3),
             ?(proj2 (String.eqb_eq _ _) E4),
             ?(proj2 (String.eqb_neq _ _) E4);
           destruct b0; reflexivity);
      destruct b0; cbn [app]; repeat constructor; cbn; congruence.
  - intros [= <- <- <-]. split.
    + exists b0, false, false, false, false. now destruct b0.
    + destruct b0; repeat constructor. cbn. congruence.
Qed.

(** ** Serial and Model *)

(** X14.  Serial and Model read the same FRU answer: called on the same
    state they leave the same state and fail together.  Either both
    return no error, or both hand up the error of the query, or, the
    board being absent, Serial returns ErrInvalidSerial where Model
    returns its own "Model not found!" error. *)
Theorem Serial_and_Model_fail_together s w serial serr w1 model merr w2 :
  Serial s w = (Done (serial, serr), w1) ->
  Model s w = (Done (model, merr), w2) ->
  w1 = w2
  /\ (serr = None <-> merr = None)
  /\ (serr = merr
      \/ (serr = Some ErrInvalidSerial
          /\ merr = Some (errorString "SupermicroX Model(): Model not found!"))).
Proof.
  unfold Serial, Model.
  destruct (query_returns s "FRU_INFO.XML=(0,0)" w)
    as (ipmi & err & w' & Hq & Hdoc).
  rewrite !(bind_done _ _ _ _ _ Hq).
  destruct err as [e|]; cbv beta iota zeta delta [bind deref ret].
  { intros [= <- <- <-] [= <- <- <-]. repeat split; auto; discriminate. }
  destruct ipmi as [ipmi|]; [|now destruct Hdoc].
  cbv beta iota zeta delta [bind deref ret].
  destruct (IPMI_FruInfo ipmi) as [fru|]; [destruct (FruInfo_Board fru)|];
    intros [= <- <- <-] [= <- <- <-]; repeat split; auto; discriminate.
Qed.

(** ** ChassisSerial *)

Lemma append_assoc (a b c : string) : ((a ++ b) ++ c = a ++ (b ++ c))%string.
Proof. induction a as [|x a IH]; cbn; [reflexivity | now rewrite IH]. Qed.

Lemma append_nil_r (a : string) : (a ++ "" = a)%string.
Proof. induction a as [|x a IH]; cbn; [reflexivity | now rewrite IH]. Qed.

Lemma extendedInfo_text l :
  forall n e,
    extendedInfo (Z.of_nat n) l e
    = (e ++ fold_right String.append ""
              (map (fun ix => Sprintf_Extended (Z.of_nat (fst ix)) (snd ix))
                 (combine (seq n (List.length l)) l)))%string.
Proof.
  induction l as [|x l IH]; intros n e; cbn.
  - now rewrite append_nil_r.
  - replace (Z.of_nat n + 1) with (Z.of_nat (S n)) by lia.
    rewrite IH. apply append_assoc.
Qed.

(** X15.  When the chassis page is fetched and decoded, a non-empty error
    code makes ChassisSerial fail, whatever serial number the answer
    carries, with the error made from the text
    "Code: <code>, Message: <message>" followed by the formatted extended
    messages, one for every entry of the list, in the list's order, each
    with its index counted from 0; with an empty code it returns the
    serial number lower-cased. *)
Theorem ChassisSerial_error_object s w payload w' info :
  get s "redfish/v1/Chassis/1" true w = (Done (Some payload, None), w') ->
  json_Unmarshal payload = (info, None) ->
  (Code (Error info) <> "" ->
   ChassisSerial s w
   = (Done ("",
            Some (errorString
                    (Errorf
                       (("Code: " ++ Code (Error info)
                         ++ ", Message: " ++ Message (Error info))
                        ++ fold_right String.append ""
                             (map (fun ix =>
                                     Sprintf_Extended (Z.of_nat (fst ix)) (snd ix))
                                (combine
                                   (seq 0 (List.length (ExtendedMessage (Error info))))
                                   (ExtendedMessage (Error info)))))%string))),
      w'))
  /\ (Code (Error info) = "" ->
      ChassisSerial s w = (Done (ToLower (SerialNumber info), None), w')).
Proof.
  intros Hg Hj. unfold ChassisSerial. rewrite (bind_done _ _ _ _ _ Hg).
  cbv beta iota zeta delta [bind deref ret]. rewrite Hj. split.
  - intros Hcode.
    destruct (String.eqb_spec (Code (Error info)) ""); [contradiction|].
    cbn [negb].
    rewrite (extendedInfo_text (ExtendedMessage (Error info)) 0). reflexivity.
  - intros ->. reflexivity.
Qed.

(** ** The requests *)

(** X16.  The cookie loop attaches exactly the cookies of the jar that
    are named SID and have a non-empty value, in the jar's order, after
    the cookies the request had, and touches nothing else of the
    request. *)
Theorem addSessionCookies_filters cookies :
  forall req,
    Request_Cookies (addSessionCookies req cookies)
    = (Request_Cookies req
       ++ filter (fun c => String.eqb (Cookie_Name c) "SID"
                           && negb (String.eqb (Cookie_Value c) ""))
            cookies)%list
    /\ Request_Method (addSessionCookies req cookies) = Request_Method req
    /\ Request_URL (addSessionCookies req cookies) = Request_URL req
    /\ Request_Body (addSessionCookies req cookies) = Request_Body req
    /\ Request_Header (addSessionCookies req cookies) = Request_Header req
    /\ Request_BasicAuth (addSessionCookies req cookies) = Request_BasicAuth req.
Proof.
  unfold addSessionCookies.
  induction cookies as [|c cookies IH]; intros req; cbn [fold_left filter].
  - rewrite app_nil_r. repeat split.
  - destruct (String.eqb (Cookie_Name c) "SID"
              && negb (String.eqb (Cookie_Value c) "")).
    + destruct (IH (AddCookie req c)) as (Hc & Hm & Hu & Hb & Hh & Ha).
      rewrite Hc, Hm, Hu, Hb, Hh, Ha. cbn. rewrite <- app_assoc.
      repeat split.
    + apply IH.
Qed.

(** X17.  get returns a payload or an error, never both and never
    neither: the payload is nil exactly when the error is not. *)
Theorem get_payload_xor_error s endpoint authentication w payload err w' :
  get s endpoint authentication w = (Done (payload, err), w') ->
  (payload = None <-> err <> None).
Proof.
  unfold get, bind, login, Cookies, Do, ret.
  destruct (httpLogin s w) as [[e|] w1];
    [intros [= <- <- <-]; split; [discriminate|reflexivity]|].
  destruct (NewRequest _ _ _) as [req|e];
    [|intros [= <- <- <-]; split; [discriminate|reflexivity]].
  destruct (url_Parse _) as [msg|];
    [intros [= <- <- <-]; split; [discriminate|reflexivity]|].
  destruct (httpClient_Do _ w1) as [[resp|msg] w2];
    [|intros [= <- <- <-]; split; [discriminate|reflexivity]].
  destruct (ReadAll resp) as [body [e|]];
    [intros [= <- <- <-]; split; [discriminate|reflexivity]|].
  destruct (Response_StatusCode resp =? 404); intros [= <- <- <-];
    split; try discriminate; try reflexivity; intros H; now destruct H.
Qed.

(** X23.  query does not look at the status code.  Once it has logged in
    and its request is accepted, any response whose body can be read, a
    500 as much as a 200, is decoded, and query returns the decoder's
    document, also a partly filled one, next to the decoder's error if
    any.  The request is a POST of the query string, under the
    form-urlencoded content type, with the session cookies of the jar. *)
Theorem query_decodes_any_status (s : SupermicroX) (key : string)
  (w w1 w2 : World) req resp :
  httpLogin s w = (None, w1) ->
  NewRequest "POST" ("https://" ++ ip s ++ "/cgi/ipmi.cgi") key = inl req ->
  url_Parse ("https://" ++ ip s ++ "/cgi/ipmi.cgi") = None ->
  httpClient_Do
    (addSessionCookies
       (Header_Add "Content-Type" "application/x-www-form-urlencoded" req)
       (Jar_Cookies ("https://" ++ ip s ++ "/cgi/ipmi.cgi") w1))
    w1 = (inl resp, w2) ->
  Response_BodyErr resp = None ->
  query s key w
  = (Done (Some (fst (xml_Unmarshal (Response_Body resp))),
           match snd (xml_Unmarshal (Response_Body resp)) with
           | Some msg => Some (libError encoding_xml msg)
           | None => None
           end), w2).
Proof.
  intros Hl Hreq Hurl Hdo Hbody.
  unfold query, login, Cookies, Do, ReadAll.
  cbv beta iota zeta delta [bind ret].
  rewrite Hl, Hreq, Hurl, Hdo, Hbody.
  destruct (xml_Unmarshal (Response_Body resp)) as [ipmi [msg|]]; reflexivity.
Qed.

(** ** post *)

Section Post.
Variable url_String : string -> string.
Variable Values : Type.
Variable Values_Encode : Values -> string.

(** X18.  Once post has logged in and its request is accepted, it returns
    the status code of the response as it is, whatever it is (a 404 is no
    error here), and keeps it when reading the body fails, next to the
    read error.  Without a content type the body sent is the encoded form
    values under the form-urlencoded content type; with one it is the raw
    form under that content type. *)
Theorem post_reports_status s endpoint (values : Values) form ctype
  (w w1 w2 : World) req resp :
  httpLogin s w = (None, w1) ->
  url_Parse ("https://" ++ ip s ++ "/cgi/" ++ endpoint) = None ->
  NewRequest "POST" (url_String ("https://" ++ ip s ++ "/cgi/" ++ endpoint))
    (if String.eqb ctype "" then Values_Encode values else form) = inl req ->
  httpClient_Do
    (addSessionCookies
       (if String.eqb ctype ""
        then Header_Add "Content-Type" "application/x-www-form-urlencoded" req
        else Header_Set "Content-Type" ctype req)
       (Jar_Cookies ("https://" ++ ip s ++ "/cgi/" ++ endpoint) w1))
    w1 = (inl resp, w2) ->
  post url_String Values Values_Encode s endpoint (Some values) form ctype w
  = (Done (Response_StatusCode resp,
           match Response_BodyErr resp with
           | Some msg => Some (libError io_ioutil msg)
           | None => None
           end), w2).
Proof.
  intros Hl Hurl Hreq Hdo.
  unfold post, login, Cookies, Do, ReadAll.
  cbv beta iota zeta delta [bind deref ret].
  rewrite Hl, Hurl.
  destruct (String.eqb ctype ""); rewrite Hreq, Hdo;
    destruct (Response_BodyErr resp); reflexivity.
Qed.

(** X19.  The form values reach post through a pointer that is read only
    when no content type is given: with an empty content type and nil
    values post panics, after the login and before anything is sent; with
    a content type the values are never looked at. *)
Theorem post_nil_values s endpoint form (w w1 : World) :
  httpLogin s w = (None, w1) ->
  url_Parse ("https://" ++ ip s ++ "/cgi/" ++ endpoint) = None ->
  post url_String Values Values_Encode s endpoint None form "" w
  = (Panic nilDeref, w1)
  /\ (forall ctype values,
        ctype <> "" ->
        post url_String Values Values_Encode s endpoint None form ctype w
        = post url_String Values Values_Encode s endpoint (Some values) form
            ctype w).
Proof.
  intros Hl Hurl. split.
  - unfold post, login. cbv beta iota zeta delta [bind deref ret panic].
    rewrite Hl, Hurl. reflexivity.
  - intros ctype values Hc. unfold post.
    destruct (String.eqb_spec ctype ""); [contradiction | reflexivity].
Qed.

End Post.

(** ** What every snapshot holds *)

Lemma orReturn_keeps {A} (m : M World (A * option error)) k w
  (Q : snapshot -> Prop) :
  (forall v w1, m w = (Done (v, None), w1) ->
     forall snap err w', k v w1 = (Done (Some snap, err), w') -> Q snap) ->
  forall snap err w', orReturn m k w = (Done (Some snap, err), w') -> Q snap.
Proof.
  intros Hk snap err w'. unfold orReturn, bind, ret.
  destruct (m w) as [[[v [e|]]|msg] w1] eqn:E; try discriminate.
  now apply Hk.
Qed.

Lemma CPU_threads_are_cores s w name count cores threads err w' :
  CPU s w = (Done (name, count, cores, threads, err), w') -> threads = cores.
Proof.
  unfold CPU.
  destruct (query_returns s "SMBIOS_INFO.XML=(0,0)" w)
    as (ipmi & qerr & w1 & Hq & Hdoc).
  rewrite (bind_done _ _ _ _ _ Hq).
  destruct qerr as [e|]; cbv beta iota zeta delta [bind deref ret];
    [now intros [= _ _ <- <- _ _]|].
  destruct ipmi as [ipmi|]; [|now destruct Hdoc].
  cbv beta iota zeta delta [bind deref ret].
  destruct (IPMI_CPU ipmi) as [|entry rest]; [now intros [= _ _ <- <- _ _]|].
  destruct (Go.Atoi (CPU_Core entry)) as [v [ne|]]; now intros [= _ _ <- <- _ _].
Qed.

Lemma Status_is_ok_or_unhealthy s w health w' :
  Status s w = (Done (health, None), w') ->
  health = "OK" \/ health = "Unhealthy".
Proof.
  unfold Status.
  destruct (query_returns s "SENSOR_INFO_FOR_SYS_HEALTH.XML=(1,ff)" w)
    as (ipmi & qerr & w1 & Hq & Hdoc).
  rewrite (bind_done _ _ _ _ _ Hq).
  destruct qerr as [e|]; cbv beta iota zeta delta [bind deref ret];
    [discriminate|].
  destruct ipmi as [ipmi|]; [|now destruct Hdoc].
  cbv beta iota zeta delta [bind deref ret].
  destruct (IPMI_HealthInfo ipmi) as [hi|]; [destruct (String.eqb _ _)|];
    intros [= <- _]; auto.
Qed.

Ltac keep_going Q :=
  repeat (apply (orReturn_keeps _ _ _ Q);
          let v := fresh "v" in
          let w := fresh "w" in
          let H := fresh "Hcall" in
          intros v w H; cbv beta;
          repeat match goal with
                 | x : (_ * _)%type |- _ => destruct x
                 end).

(** X20.  Every snapshot ServerSnapshot returns, blade or discrete,
    carries the provider's vendor name and the target's address, lists no
    disk, reports as many hardware threads as cores, and has the status
    "OK" or "Unhealthy". *)
Theorem ServerSnapshot_fields s w snap err w' :
  ServerSnapshot s w = (Done (Some snap, err), w') ->
  snapshotVendor snap = VendorID
  /\ snapshotBmcAddress snap = ip s
  /\ snapshotDisks snap = []
  /\ snapshotThreadCount snap = snapshotCoreCount snap
  /\ (snapshotStatus snap = "OK" \/ snapshotStatus snap = "Unhealthy").
Proof.
  set (Q := fun snap0 =>
              snapshotVendor snap0 = VendorID
              /\ snapshotBmcAddress snap0 = ip s
              /\ snapshotDisks snap0 = []
              /\ snapshotThreadCount snap0 = snapshotCoreCount snap0
              /\ (snapshotStatus snap0 = "OK"
                  \/ snapshotStatus snap0 = "Unhealthy")).
  intros Hs. change (Q snap). revert snap err w' Hs.
  destruct (IsBlade_returns s w) as (b & perr & w1 & Hp & _).
  destruct (HardwareType_returns s w1) as (bmcType & w2 & Hh).
  unfold ServerSnapshot. rewrite (bind_done _ _ _ _ _ Hp).
  destruct b; [unfold bladeSnapshot | unfold discreteSnapshot];
    rewrite (bind_done _ _ _ _ _ Hh);
    keep_going Q; intros snap err w' [= <- _ _]; subst Q; cbn;
    repeat match goal with
           | H : Disks _ _ = _ |- _ => unfold Disks, ret in H; injection H as <- _
           | H : CPU _ _ = _ |- _ => apply CPU_threads_are_cores in H
           | H : Status _ _ = _ |- _ => apply Status_is_ok_or_unhealthy in H
           end;
    repeat split; trivial.
Qed.

End Provider.
(** ** The SOAP helper *)

Section Envelope.
Import c7000.
Context {A : Type}.

(** X21.  Whatever the payload and the session key, empty or not, both
    can be read back from the envelope wrapXML builds: the body holds the
    payload and the token text is the key; mustUnderstand is "true"
    exactly for a non-empty key; and the six namespace attributes are the
    same for every envelope. *)
Theorem wrapXML_reads_back (element : A) (sessionKey : string) :
  Body_Content (Envelope_Body (wrapXML element sessionKey)) = element
  /\ sessionKeyOf (Header_Security (Envelope_Header (wrapXML element sessionKey)))
     = sessionKey
  /\ (Security_MustUnderstand
        (Header_Security (Envelope_Header (wrapXML element sessionKey))) = "true"
      <-> sessionKey <> "")
  /\ Envelope_SOAPENV (wrapXML element sessionKey)
     = "http://www.w3.org/2003/05/soap-envelope"
  /\ Envelope_Xsi (wrapXML element sessionKey)
     = "http://www.w3.org/2001/XMLSchema-instance"
  /\ Envelope_Xsd (wrapXML element sessionKey)
     = "http://www.w3.org/2001/XMLSchema"
  /\ Envelope_Wsu (wrapXML element sessionKey)
     = "http://docs.oasis-open.org/wss/2004/01/oasis-200401-wss-wssecurity-utility-1.0.xsd"
  /\ Envelope_Wsse (wrapXML element sessionKey)
     = "http://docs.oasis-open.org/wss/2004/01/oasis-200401-wss-wssecurity-secext-1.0.xsd"
  /\ Envelope_Hpoa (wrapXML element sessionKey) = "hpoa.xsd".
Proof.
  unfold wrapXML.
  destruct (String.eqb_spec sessionKey "") as [->|Hkey]; cbn;
    repeat split; trivial; try discriminate; try contradiction.
Qed.

End Envelope.

Section Administrator.
Import c7000.
Context {World : Type}.
Variable url_Parse : string -> option string.
Variable url_String : string -> string.
Variable httpClient_Do : Request -> World -> (Response + string) * World.

(** X22.  postXML returns all or nothing.  With an error the status is 0
    and the body empty, also when the response came with a status and only
    reading its body failed.  With no error the envelope went out once, as
    a POST of the given bytes to the /hpoa address under the content type
    "text/plain;charset=UTF-8", with no cookie and no credentials, and
    the status and body of the response are returned as they are,
    whatever the status. *)
Theorem postXML_all_or_nothing c data (w : World) status body err w' :
  postXML url_Parse url_String httpClient_Do c data w
  = (Done (status, body, err), w') ->
  (err <> None -> status = 0 /\ body = "")
  /\ (err = None ->
      exists resp,
        httpClient_Do
          {| Request_Method := "POST";
             Request_URL := url_String ("https://" ++ c7000.ip c ++ "/hpoa");
             Request_Body := data;
             Request_Header := [("Content-Type", "text/plain;charset=UTF-8")];
             Request_Cookies := [];
             Request_BasicAuth := None |} w = (inl resp, w')
        /\ Response_BodyErr resp = None
        /\ status = Response_StatusCode resp
        /\ body = Response_Body resp).
Proof.
  unfold postXML, ret.
  destruct (url_Parse _) as [msg|];
    [intros [= <- <- <- <-]; split; [auto|discriminate]|].
  destruct (url_Parse _) as [msg|];
    [intros [= <- <- <- <-]; split; [auto|discriminate]|].
  unfold Header_Add. cbn [Request_Method Request_URL Request_Body Request_Header
                            Request_Cookies Request_BasicAuth app].
  destruct (httpClient_Do _ w) as [[resp|msg] w1] eqn:Hdo;
    [|intros [= <- <- <- <-]; split; [auto|discriminate]].
  unfold ReadAll. destruct (Response_BodyErr resp) as [msg|] eqn:Hb;
    intros [= <- <- <- <-]; split; try discriminate; auto.
  - intros H. now destruct H.
  - intros _. exists resp. auto.
Qed.

End Administrator.

(** ** The further properties on the scripted target *)

Section Runs.
Import Fixture.

(** With the tenth login refused the aggregation on the blade panics in
    Memory. *)
Lemma ServerSnapshot_crashes_only_in_Memory_witness :
  @ServerSnapshot _ memoryDown target boot
  = (Panic nilDeref,
     bmcAt 10 ["Get_NodeInfoReadings.XML=(0,0)"; "FRU_INFO.XML=(0,0)";
               "FRU_INFO.XML=(0,0)"; "GENERIC_INFO.XML=(0,0)";
               "FRU_INFO.XML=(0,0)"; "GENERIC_INFO.XML=(0,0)";
               "Get_PlatformInfo.XML=(0,0)"; "SMBIOS_INFO.XML=(0,0)";
               "SMBIOS_INFO.XML=(0,0)"])
  /\ nilDeref = nilDeref
  /\ ["Memory"; "CPU"; "BiosVersion"; "Disks"; "Nics"; "Model"; "Version";
      "Serial"]
     = ["Memory"; "CPU"; "BiosVersion"; "Disks"; "Nics"; "Model"; "Version";
        "Serial"].
Proof.
  apply (ServerSnapshot_crashes_only_in_Memory (P := memoryDown) target boot
           true None (bmcAt 1 ["Get_NodeInfoReadings.XML=(0,0)"]) "X10DRT"
           (bmcAt 2 ["Get_NodeInfoReadings.XML=(0,0)"; "FRU_INFO.XML=(0,0)"]));
    vm_compute; reflexivity.
Defined.

(** The healthy blade returns a snapshot and no error. *)
Lemma ServerSnapshot_snapshot_xor_error_witness :
  exists srv err w',
    @ServerSnapshot _ blade target boot = (Done (srv, err), w')
    /\ ((exists snap, srv = Some snap /\ err = None
                      /\ forall isBlade probeErr w1,
                           @IsBlade _ blade target boot
                           = (Done (isBlade, probeErr), w1) ->
                           isBladeSnapshot snap = isBlade)
        \/ (exists e, srv = None /\ err = Some e)).
Proof.
  do 3 eexists. split; [vm_compute; reflexivity|].
  eapply (ServerSnapshot_snapshot_xor_error (P := blade) target boot).
  vm_compute; reflexivity.
Defined.

(** A locked target: three logins, the third error returned. *)
Lemma ServerSnapshot_login_refused_witness :
  @ServerSnapshot _ locked target boot
  = (Done (None, Some ErrLoginFailed), bmcAt 3 []).
Proof.
  apply (ServerSnapshot_login_refused (P := locked) target boot
           ErrLoginFailed (bmcAt 1 []) ErrLoginFailed (bmcAt 2 [])
           ErrLoginFailed (bmcAt 3 []));
    reflexivity.
Defined.

(** On the locked target Slot keeps its default and CPU its zeros. *)
Lemma accessors_hand_up_login_error_witness :
  @Slot _ locked target boot = (Done (1, Some ErrLoginFailed), bmcAt 1 [])
  /\ @CPU _ locked target boot
     = (Done ("", 0, 0, 0, Some ErrLoginFailed), bmcAt 1 []).
Proof.
  pose proof (accessors_hand_up_login_error (P := locked) target boot
                ErrLoginFailed (bmcAt 1 []) eq_refl) as H.
  split; apply H.
Defined.

(** An empty slot after one module of 8192 MB: 8192, not 8, and the
    third module is not counted. *)
Lemma Memory_stops_at_unparsable_size_witness :
  @Memory _ emptySlot target boot
  = (Done (8192, Some (NumError "Atoi" "No DIMM" Go.ErrSyntax)),
     bmcAt 1 ["SMBIOS_INFO.XML=(0,0)"]).
Proof.
  apply (Memory_stops_at_unparsable_size (P := emptySlot) target boot
           (withSmbios [xeon "8"] ["8192 MB"; "No DIMM"; "4096 MB"]) None
           (bmcAt 1 ["SMBIOS_INFO.XML=(0,0)"])
           [{| Dimm_Size := "8192 MB" |}] [8192] {| Dimm_Size := "No DIMM" |}
           [{| Dimm_Size := "4096 MB" |}] 0 Go.ErrSyntax);
    try reflexivity.
  repeat constructor.
Defined.

(** A cut-short SMBIOS answer with one module decoded: 8 GiB and the
    decoder's error. *)
Lemma Memory_value_with_query_error_witness :
  @Memory _ garbled target boot
  = (Done (8, Some (libError encoding_xml "unexpected EOF")),
     bmcAt 1 ["SMBIOS_INFO.XML=(0,0)"]).
Proof.
  apply (Memory_value_with_query_error (P := garbled) target boot
           (withSmbios [xeon "8"] ["8192 MB"])
           (libError encoding_xml "unexpected EOF")
           (bmcAt 1 ["SMBIOS_INFO.XML=(0,0)"]) [8192]);
    [reflexivity | repeat constructor].
Defined.

(** The rack server without node info. *)
Lemma node_readings_without_node_info_witness :
  @PowerKw _ standalone target boot
  = (Done (Go.float64_zero, None), bmcAt 1 ["Get_NodeInfoReadings.XML=(0,0)"])
  /\ @TempC _ standalone target boot
     = (Done (0, None), bmcAt 1 ["Get_NodeInfoReadings.XML=(0,0)"])
  /\ @Slot _ standalone target boot
     = (Done (1, Some ErrUnableToReadData),
        bmcAt 1 ["Get_NodeInfoReadings.XML=(0,0)"]).
Proof.
  apply (node_readings_without_node_info (P := standalone) target boot
           IPMI_zero (bmcAt 1 ["Get_NodeInfoReadings.XML=(0,0)"]));
    reflexivity.
Defined.

(** A board "QQQ" among nodes ABC and XYZ. *)
Lemma node_readings_without_own_node_witness :
  @PowerKw _ stranger target boot
  = (Done (Go.float64_zero, None),
     bmcAt 2 ["Get_NodeInfoReadings.XML=(0,0)"; "FRU_INFO.XML=(0,0)"])
  /\ @TempC _ stranger target boot
     = (Done (0, None),
        bmcAt 2 ["Get_NodeInfoReadings.XML=(0,0)"; "FRU_INFO.XML=(0,0)"])
  /\ @Slot _ stranger target boot
     = (Done (1, None),
        bmcAt 2 ["Get_NodeInfoReadings.XML=(0,0)"; "FRU_INFO.XML=(0,0)"]).
Proof.
  apply (node_readings_without_own_node (P := stranger) target boot
           (withNodes twoNodes) (bmcAt 1 ["Get_NodeInfoReadings.XML=(0,0)"])
           {| NodeInfo_Nodes := twoNodes |} "qqq"
           (bmcAt 2 ["Get_NodeInfoReadings.XML=(0,0)"; "FRU_INFO.XML=(0,0)"]));
    try reflexivity.
  repeat constructor; discriminate.
Defined.

(** A FRU answer without a board. *)
Lemma node_readings_hand_up_serial_error_witness :
  @PowerKw _ boardless target boot
  = (Done (Go.float64_zero, Some ErrInvalidSerial),
     bmcAt 2 ["Get_NodeInfoReadings.XML=(0,0)"; "FRU_INFO.XML=(0,0)"])
  /\ @TempC _ boardless target boot
     = (Done (0, Some ErrInvalidSerial),
        bmcAt 2 ["Get_NodeInfoReadings.XML=(0,0)"; "FRU_INFO.XML=(0,0)"])
  /\ @Slot _ boardless target boot
     = (Done (1, Some ErrInvalidSerial),
        bmcAt 2 ["Get_NodeInfoReadings.XML=(0,0)"; "FRU_INFO.XML=(0,0)"]).
Proof.
  apply (node_readings_hand_up_serial_error (P := boardless) target boot
           (withNodes twoNodes) (bmcAt 1 ["Get_NodeInfoReadings.XML=(0,0)"])
           {| NodeInfo_Nodes := twoNodes |} "");
    reflexivity.
Defined.

(** The blade's own node XYZ reports 33 degrees. *)
Lemma TempC_own_node_witness :
  @TempC _ blade target boot
  = (Done (33, None),
     bmcAt 2 ["Get_NodeInfoReadings.XML=(0,0)"; "FRU_INFO.XML=(0,0)"]).
Proof.
  apply (TempC_own_node (P := blade) target boot (withNodes twoNodes)
           (bmcAt 1 ["Get_NodeInfoReadings.XML=(0,0)"])
           {| NodeInfo_Nodes := twoNodes |} "xyz"
           (bmcAt 2 ["Get_NodeInfoReadings.XML=(0,0)"; "FRU_INFO.XML=(0,0)"])
           [node 0 "ABC" "500" "31"] (node 1 "XYZ" "900" "33") [] 33 None);
    try reflexivity.
  repeat constructor; discriminate.
Defined.

(** The serial listed at IDs 0 and 3: the slot is 4, while the
    temperature is that of the first entry. *)
Lemma Slot_last_own_node_witness :
  @Slot _ listedTwice target boot
  = (Done (4, None),
     bmcAt 2 ["Get_NodeInfoReadings.XML=(0,0)"; "FRU_INFO.XML=(0,0)"])
  /\ @TempC _ listedTwice target boot
     = (Done (31, None),
        bmcAt 2 ["Get_NodeInfoReadings.XML=(0,0)"; "FRU_INFO.XML=(0,0)"]).
Proof.
  split; [|reflexivity].
  apply (Slot_last_own_node (P := listedTwice) target boot
           (withNodes [node 0 "xyz" "500" "31"; node 1 "ABC" "700" "35";
                       node 3 "XYZ" "900" "33"])
           (bmcAt 1 ["Get_NodeInfoReadings.XML=(0,0)"])
           {| NodeInfo_Nodes := [node 0 "xyz" "500" "31"; node 1 "ABC" "700" "35";
                                 node 3 "XYZ" "900" "33"] |} "xyz"
           (bmcAt 2 ["Get_NodeInfoReadings.XML=(0,0)"; "FRU_INFO.XML=(0,0)"])
           [node 0 "xyz" "500" "31"; node 1 "ABC" "700" "35"]
           (node 3 "XYZ" "900" "33") []);
    try reflexivity.
  constructor.
Defined.

(** A board with the BMC and three wired ports. *)
Lemma Nics_names_in_order_witness :
  exists nics err w',
    @Nics _ wired target boot = (Done (nics, err), w')
    /\ map Nic_Name nics = ["bmc"; "eth0"; "eth1"; "eth3"]
    /\ Forall (fun nic => Nic_Name nic <> "bmc" -> Nic_MacAddress nic <> "") nics.
Proof.
  do 3 eexists. split; [vm_compute; reflexivity|]. split; [reflexivity|].
  eapply (Nics_names_in_order (P := wired) target boot). vm_compute; reflexivity.
Defined.

(** Serial and Model on the healthy blade, and on the board-less one. *)
Lemma Serial_and_Model_fail_together_witness :
  (bmcAt 1 ["FRU_INFO.XML=(0,0)"] = bmcAt 1 ["FRU_INFO.XML=(0,0)"]
   /\ (@None error = None <-> @None error = None)
   /\ (@None error = None
       \/ (None = Some ErrInvalidSerial
           /\ None = Some (errorString "SupermicroX Model(): Model not found!"))))
  /\ (bmcAt 1 ["FRU_INFO.XML=(0,0)"] = bmcAt 1 ["FRU_INFO.XML=(0,0)"]
      /\ (Some ErrInvalidSerial = None
          <-> Some (errorString "SupermicroX Model(): Model not found!") = None)
      /\ (Some ErrInvalidSerial
          = Some (errorString "SupermicroX Model(): Model not found!")
          \/ (Some ErrInvalidSerial = Some ErrInvalidSerial
              /\ Some (errorString "SupermicroX Model(): Model not found!")
                 = Some (errorString "SupermicroX Model(): Model not found!")))).
Proof.
  split.
  - apply (Serial_and_Model_fail_together (P := blade) target boot
             "xyz" None (bmcAt 1 ["FRU_INFO.XML=(0,0)"])
             "X10DRT" None (bmcAt 1 ["FRU_INFO.XML=(0,0)"]));
      reflexivity.
  - apply (Serial_and_Model_fail_together (P := boardless) target boot
             "" (Some ErrInvalidSerial) (bmcAt 1 ["FRU_INFO.XML=(0,0)"])
             "" (Some (errorString "SupermicroX Model(): Model not found!"))
             (bmcAt 1 ["FRU_INFO.XML=(0,0)"]));
      reflexivity.
Defined.

(** The chassis page answering code 1, message bad: with no extended
    message, and with two of them, the second a null entry. *)
Lemma ChassisSerial_error_object_witness :
  @ChassisSerial _ chassisFault target boot
  = (Done ("", Some (errorString "Code: 1, Message: bad")), bmcAt 1 [chassisURL])
  /\ @ChassisSerial _ chassisFaultExtended target boot
     = (Done ("", Some (errorString
                          "Code: 1, Message: bad, Extended[0]: &{Base.1.0.GeneralError}, Extended[1]: <nil>")),
        bmcAt 1 [chassisURL]).
Proof.
  split.
  - apply (proj1 (ChassisSerial_error_object (P := chassisFault) target boot
                    chassisURL (bmcAt 1 [chassisURL])
                    {| SerialNumber := "";
                       Error := {| Code := "1"; Message := "bad";
                                   ExtendedMessage := [] |} |}
                    eq_refl eq_refl)).
    discriminate.
  - apply (proj1 (ChassisSerial_error_object (P := chassisFaultExtended)
                    target boot chassisURL (bmcAt 1 [chassisURL])
                    {| SerialNumber := "S15";
                       Error := {| Code := "1"; Message := "bad";
                                   ExtendedMessage := extendedTwo |} |}
                    eq_refl eq_refl)).
    discriminate.
Defined.

(** The chassis page on a firmware without it: no payload, an error. *)
Lemma get_payload_xor_error_witness :
  @None string = None <-> Some ErrPageNotFound <> None.
Proof.
  apply (get_payload_xor_error (P := noRedfish) target "redfish/v1/Chassis/1"
           true boot None (Some ErrPageNotFound) (bmcAt 1 [chassisURL])).
  reflexivity.
Defined.

(** The power query on the healthy blade. *)
Lemma query_decodes_any_status_witness :
  @query _ blade target "POWER_INFO.XML=(0,0)" boot
  = (Done (Some (withPower "ON"), None), bmcAt 1 ["POWER_INFO.XML=(0,0)"]).
Proof.
  apply (query_decodes_any_status (P := blade) target "POWER_INFO.XML=(0,0)"
           boot (bmcAt 1 []) (bmcAt 1 ["POWER_INFO.XML=(0,0)"])
           {| Request_Method := "POST";
              Request_URL := "https://10.0.0.7/cgi/ipmi.cgi";
              Request_Body := "POWER_INFO.XML=(0,0)"; Request_Header := [];
              Request_Cookies := []; Request_BasicAuth := None |}
           {| Response_StatusCode := 200;
              Response_Body := "POWER_INFO.XML=(0,0)";
              Response_BodyErr := None |});
    reflexivity.
Defined.

(** A form post of op=reset. *)
Lemma post_reports_status_witness :
  @post _ blade (fun u => u) (list (string * string)) encodePairs target
    "op.cgi" (Some [("op", "reset")]) "" "" boot
  = (Done (200, None), bmcAt 1 ["op=reset"]).
Proof.
  apply (post_reports_status (P := blade) (fun u => u) (list (string * string))
           encodePairs target "op.cgi" [("op", "reset")] "" "" boot
           (bmcAt 1 []) (bmcAt 1 ["op=reset"])
           {| Request_Method := "POST";
              Request_URL := "https://10.0.0.7/cgi/op.cgi";
              Request_Body := "op=reset"; Request_Header := [];
              Request_Cookies := []; Request_BasicAuth := None |}
           {| Response_StatusCode := 200; Response_Body := "op=reset";
              Response_BodyErr := None |});
    reflexivity.
Defined.

(** A post with neither content type nor values. *)
Lemma post_nil_values_witness :
  @post _ blade (fun u => u) (list (string * string)) encodePairs target
    "op.cgi" None "" "" boot
  = (Panic nilDeref, bmcAt 1 []).
Proof.
  apply (post_nil_values (P := blade) (fun u => u) (list (string * string))
           encodePairs target "op.cgi" "" boot (bmcAt 1 []));
    reflexivity.
Defined.

(** The snapshot of the healthy blade. *)
Lemma ServerSnapshot_fields_witness :
  exists snap err w',
    @ServerSnapshot _ blade target boot = (Done (Some snap, err), w')
    /\ snapshotVendor snap = "Supermicro"
    /\ snapshotBmcAddress snap = "10.0.0.7"
    /\ snapshotDisks snap = []
    /\ snapshotThreadCount snap = snapshotCoreCount snap
    /\ (snapshotStatus snap = "OK" \/ snapshotStatus snap = "Unhealthy").
Proof.
  do 3 eexists. split; [vm_compute; reflexivity|].
  eapply (ServerSnapshot_fields (P := blade) target boot). vm_compute; reflexivity.
Defined.

(** An administrator whose answer breaks off in the body, and one that
    answers 500. *)
Lemma postXML_all_or_nothing_witness :
  (Some (libError io_ioutil "reset") <> None -> 0 = 0 /\ "" = "")
  /\ exists resp,
      oaDo 500 None
        {| Request_Method := "POST"; Request_URL := "https://10.0.0.9/hpoa";
           Request_Body := "<x/>";
           Request_Header := [("Content-Type", "text/plain;charset=UTF-8")];
           Request_Cookies := []; Request_BasicAuth := None |} boot
      = (inl resp, bmcAt 0 ["https://10.0.0.9/hpoa"])
      /\ Response_BodyErr resp = None
      /\ 500 = Response_StatusCode resp
      /\ "<x/>" = Response_Body resp.
Proof.
  split.
  - apply (postXML_all_or_nothing (fun _ => None) (fun u => u)
             (oaDo 200 (Some "reset")) oa "<x/>" boot 0 ""
             (Some (libError io_ioutil "reset"))
             (bmcAt 0 ["https://10.0.0.9/hpoa"])).
    reflexivity.
  - apply (postXML_all_or_nothing (fun _ => None) (fun u => u)
             (oaDo 500 None) oa "<x/>" boot 500 "<x/>" None
             (bmcAt 0 ["https://10.0.0.9/hpoa"]));
      reflexivity.
Defined.

End Runs.

End Extra.
